(** * ADB device selection script: a shallow embedding and its properties

    The script [douyin_guaji-main/1.py] enumerates the devices known to the
    [adb] command-line tool, classifies every device by the lexical form of
    its identifier, partitions the devices into online and offline ones,
    optionally tries to reconnect offline devices and finally lets the user
    pick an online device.

    Python strings are sequences of Unicode code points; they are modelled
    as lists of code points ([N]).  The functions that only compute
    ([analyze_device], the parsing loop, the partition loop) are plain Rocq
    functions.  The functions that talk to the outside world ([print],
    [input], [subprocess.run]) live in a small state-and-exception monad
    whose state is the chronological trace of the events the script has
    produced, and whose answers come from an environment.

    Limits of the model: [print] always succeeds; the exceptions are those
    that [subprocess.run], [input] and [int] raise, all of which derive
    from [Exception] (an interrupt from the keyboard is not modelled); the
    block under [if __name__ == "__main__"], which calls [main] and then
    counts the devices once more with a regular expression, is left out. *)

From Stdlib Require Import NArith ZArith Ascii String DecimalString.
From Stdlib Require DecimalNat DecimalFacts.
From stdpp Require Import base list strings gmap.

Open Scope list_scope.

(** ** Python strings and the builtins the script uses *)

Module Py.

Definition char := N.
Definition str := list char.

(** *** Literals

    A literal of the source file is written as a Rocq string (its UTF-8
    bytes) and decoded into code points. *)

Fixpoint bytes_of (s : string) : list N :=
  match s with
  | EmptyString => []
  | String a s' => N_of_ascii a :: bytes_of s'
  end.

Fixpoint utf8_go (acc : N) (need : nat) (bs : list N) : str :=
  match bs with
  | [] => []
  | b :: bs' =>
      match need with
      | S k =>
          let acc' := (acc * 64 + b mod 64)%N in
          match k with
          | O => acc' :: utf8_go 0%N 0 bs'
          | _ => utf8_go acc' k bs'
          end
      | O =>
          if (b <? 128)%N then b :: utf8_go 0%N 0 bs'
          else if (b <? 224)%N then utf8_go (b mod 32)%N 1 bs'
          else if (b <? 240)%N then utf8_go (b mod 16)%N 2 bs'
          else utf8_go (b mod 8)%N 3 bs'
      end
  end.

Definition str_lit (s : string) : str := utf8_go 0%N 0 (bytes_of s).

Definition NEWLINE : char := 10%N.
Definition DOT : char := 46%N.
Definition COLON : char := 58%N.

(** *** Whitespace: [str.isspace], [str.strip], [str.split]

    The code points for which CPython's [Py_UNICODE_ISSPACE] holds; both
    [strip()] and [split()] without arguments use this set. *)

Definition isspace (c : char) : bool :=
  ((9 <=? c) && (c <=? 13) || (28 <=? c) && (c <=? 32)
   || (c =? 133) || (c =? 160) || (c =? 5760)
   || (8192 <=? c) && (c <=? 8202)
   || (c =? 8232) || (c =? 8233) || (c =? 8239) || (c =? 8287)
   || (c =? 12288))%N.

Fixpoint lstrip (s : str) : str :=
  match s with
  | [] => []
  | c :: s' => if isspace c then lstrip s' else s
  end.

Definition rstrip (s : str) : str := reverse (lstrip (reverse s)).

Definition strip (s : str) : str := rstrip (lstrip s).

(** [s.split()]: the maximal runs of non-whitespace code points.  [tok]
    is the run read so far. *)
Fixpoint split_go (tok : str) (s : str) : list str :=
  match s with
  | [] => match tok with [] => [] | _ => [tok] end
  | c :: s' =>
      if isspace c
      then match tok with [] => split_go [] s' | _ => tok :: split_go [] s' end
      else split_go (tok ++ [c]) s'
  end.

Definition split (s : str) : list str := split_go [] s.

(** [s.split(sep)] for a separator of one code point (the script uses
    ['\n'] and ['.']): every occurrence separates, and the result is
    never empty. *)
Fixpoint split_on (sep : char) (s : str) : list str :=
  match s with
  | [] => [[]]
  | c :: s' =>
      if (c =? sep)%N then [] :: split_on sep s'
      else match split_on sep s' with
           | [] => [[c]]
           | w :: ws => (c :: w) :: ws
           end
  end.

(** *** [startswith] and the substring test [in] *)

Fixpoint startswith (s prefix : str) : bool :=
  match prefix, s with
  | [], _ => true
  | p :: prefix', c :: s' => (c =? p)%N && startswith s' prefix'
  | _ :: _, [] => false
  end.

(** [sub in s] *)
Fixpoint contains (sub s : str) : bool :=
  startswith s sub ||
  match s with
  | [] => false
  | _ :: s' => contains sub s'
  end.

(** [c in s] for a one-character string [c] *)
Definition contains_char (c : char) (s : str) : bool := contains [c] s.

(** *** Formatting an integer in an f-string *)

Definition str_of_nat (n : nat) : str :=
  bytes_of (NilEmpty.string_of_uint (Nat.to_uint n)).

(** [s * n] *)
Definition repeat_str (s : str) (n : nat) : str := mjoin (replicate n s).

(** *** [int(s)]

    CPython first maps every non-ASCII code point of the argument to
    ASCII: a white-space code point becomes a blank, a decimal digit of
    any script becomes the ASCII digit of the same value, and any other
    code point makes the literal invalid.  ASCII code points are kept as
    they are.  The resulting buffer is read as optional blanks
    ([Py_ISSPACE]: tab, line feed, vertical tab, form feed, carriage
    return, space), an optional sign, decimal digits in which single
    underscores may separate digits, and optional blanks.

    Two things belong to the interpreter and not to the script and are
    parameters: the table of the decimal digits that are not ASCII
    ([decimal]) and the limit on the number of digits of a literal
    ([max_str_digits], 0 for no limit, checked only above CPython's
    threshold of 640 digits). *)

Section Int.
Variable decimal : char -> option N.
Variable max_str_digits : nat.

Definition to_ascii (c : char) : option char :=
  if (c <? 128)%N then Some c
  else if isspace c then Some 32%N
  else match decimal c with
       | Some d => Some (48 + d)%N
       | None => None
       end.

Definition c_isspace (c : char) : bool :=
  ((9 <=? c) && (c <=? 13) || (c =? 32))%N.

Fixpoint c_lstrip (s : str) : str :=
  match s with
  | [] => []
  | c :: s' => if c_isspace c then c_lstrip s' else s
  end.

Definition is_digit (c : char) : bool := ((48 <=? c) && (c <=? 57))%N.

(** [after_digit] tells whether the previous character was a digit:
    an underscore is accepted only there, and the literal must end
    there. *)
Fixpoint digits (acc : Z) (cnt : nat) (after_digit : bool) (s : str)
  : option (Z * nat) :=
  match s with
  | [] => if after_digit then Some (acc, cnt) else None
  | c :: s' =>
      if is_digit c
      then digits (10 * acc + Z.of_N (c - 48)) (S cnt) true s'
      else if (c =? 95)%N && after_digit
      then digits acc cnt false s'
      else None
  end.

Definition int (s : str) : option Z :=
  match mapM to_ascii s with
  | None => None
  | Some buf =>
      let body := reverse (c_lstrip (reverse (c_lstrip buf))) in
      let '(negative, ds) :=
        match body with
        | 43%N :: r => (false, r)
        | 45%N :: r => (true, r)
        | _ => (false, body)
        end in
      match digits 0 0 false ds with
      | None => None
      | Some (n, cnt) =>
          if (640 <? cnt) && (0 <? max_str_digits) && (max_str_digits <? cnt)
          then None
          else Some (if negative then (- n)%Z else n)
      end
  end.
End Int.

(** *** [s.lower() == 'y']

    Lower-casing never shortens a string, and U+0059 and U+0079 are the
    only code points whose lower case is U+0079, so the test holds for
    exactly two strings. *)
Definition lower_eq_y (s : str) : bool :=
  bool_decide (s = str_lit "y") || bool_decide (s = str_lit "Y").

End Py.

Import Py.
Arguments str_lit : simpl never.
Opaque str_lit.

(** ** Data model *)

(** A device record as the listing produces it: the dictionary
    [{'id': ..., 'status': ...}]. *)
Record DeviceRecord := Device { device_id : str; status : str }.

#[global] Instance device_eq_dec : EqDecision DeviceRecord.
Proof. solve_decision. Defined.

(** The values stored in the dictionary [analyze_device] returns. *)
Inductive value :=
| VStr (s : str)
| VBool (b : bool).

#[global] Instance value_eq_dec : EqDecision value.
Proof. solve_decision. Defined.

#[global] Instance value_inhabited : Inhabited value := populate (VStr []).

(** Truth value of a dictionary entry, as [if] tests it. *)
Definition truthy (v : value) : bool :=
  match v with
  | VBool b => b
  | VStr s => negb (bool_decide (s = []))
  end.

(** [str(v)], as an f-string formats the entry. *)
Definition format_value (v : value) : str :=
  match v with
  | VStr s => s
  | VBool true => str_lit "True"
  | VBool false => str_lit "False"
  end.

(** ** The pure functions of the script *)

(** [analyze_device]: the classification of a record by the lexical form
    of its id. *)
Definition analyze_device (device_info : DeviceRecord) : gmap string value :=
  let device_id := device_id device_info in
  let status := status device_info in
  if startswith device_id (str_lit "adb-") then
    let parts := split_on DOT device_id in
    list_to_map
      [ ("type", VStr (str_lit "mdns_wireless"));
        ("full_id", VStr device_id);
        ("base_id", VStr (nth 0 parts []));
        ("service_type", VStr (if bool_decide (1 < length parts) then nth 1 parts [] else []));
        ("protocol", VStr (if bool_decide (2 < length parts) then nth 2 parts [] else []));
        ("is_encrypted", VBool (contains (str_lit "_tls-connect") device_id));
        ("is_wireless", VBool true);
        ("status", VStr status) ]
  else if contains_char COLON device_id then
    list_to_map
      [ ("type", VStr (str_lit "wireless"));
        ("id", VStr device_id);
        ("is_wireless", VBool true);
        ("status", VStr status) ]
  else
    list_to_map
      [ ("type", VStr (str_lit "usb"));
        ("id", VStr device_id);
        ("is_wireless", VBool false);
        ("status", VStr status) ].

(** The body of the parsing loop of [get_adb_devices_with_status]: one
    line of the listing, appended to [devices] when it has two tokens. *)
Definition parse_line (devices : list DeviceRecord) (line : str) : list DeviceRecord :=
  let line := strip line in
  if bool_decide (line <> []) then
    let parts := split line in
    if bool_decide (2 <= length parts) then
      let device_id := nth 0 parts [] in
      let status := nth 1 parts [] in
      devices ++ [Device device_id status]
    else devices
  else devices.

(** What [get_adb_devices_with_status] does with the captured standard
    output of a listing that exited with code 0. *)
Definition parse_devices (stdout : str) : list DeviceRecord :=
  let lines := split_on NEWLINE (strip stdout) in
  fold_left parse_line (drop 1 lines) [].

(** The partition loop of [display_devices]. *)
Definition partition_step (acc : list DeviceRecord * list DeviceRecord) (device : DeviceRecord)
  : list DeviceRecord * list DeviceRecord :=
  let '(online_devices, offline_devices) := acc in
  if bool_decide (status device = str_lit "device")
  then (online_devices ++ [device], offline_devices)
  else (online_devices, offline_devices ++ [device]).

Definition partition_devices (devices : list DeviceRecord) : list DeviceRecord * list DeviceRecord :=
  fold_left partition_step devices ([], []).

(** ** Effects

    The script prints, reads lines from standard input and runs [adb].
    An execution is recorded as the chronological list of these events.
    What the outside world answers is given by an environment: the
    result of an external command and the line read by [input] may depend
    on everything that happened before. *)

Inductive event :=
| EvPrint (text : str)
| EvRun (argv : list str) (timeout : nat)
| EvInput (prompt : str).

#[global] Instance event_eq_dec : EqDecision event.
Proof. solve_decision. Defined.

Definition trace := list event.

(** The exceptions that [subprocess.run], [input] and [int] raise.  All of
    them derive from [Exception]; [UnicodeDecodeError] derives from
    [ValueError].  Asynchronous interrupts are outside the model. *)
Inductive exception_class :=
| TimeoutExpired
| OSError
| FileNotFoundError
| ValueError
| UnicodeDecodeError
| EOFError.

Record exception := Exception { exc_class : exception_class; exc_str : str }.

Definition isinstance_ValueError (e : exception) : bool :=
  match exc_class e with
  | ValueError | UnicodeDecodeError => true
  | _ => false
  end.

Inductive result (A : Type) :=
| Ret (a : A)
| Raise (e : exception).
Arguments Ret {A} a.
Arguments Raise {A} e.

(** [subprocess.CompletedProcess] with captured text output. *)
Record CompletedProcess :=
  Completed { returncode : Z; stdout : str; stderr : str }.

Record Env := {
  (** outcome of [subprocess.run(argv, timeout=...)] after a given history *)
  run_outcome : trace -> list str -> nat -> result CompletedProcess;
  (** outcome of [input(prompt)] after a given history *)
  input_outcome : trace -> str -> result str;
  (** the interpreter's table of non-ASCII decimal digits *)
  unicode_decimal : char -> option N;
  (** the interpreter's [sys.get_int_max_str_digits()] *)
  int_max_str_digits : nat
}.

Definition M (A : Type) : Type := trace -> result A * trace.

Definition ret {A} (a : A) : M A := fun t => (Ret a, t).

Definition bind {A B} (m : M A) (k : A -> M B) : M B :=
  fun t =>
    match m t with
    | (Ret a, t') => k a t'
    | (Raise e, t') => (Raise e, t')
    end.

Definition raise {A} (e : exception) : M A := fun t => (Raise e, t).

(** [try: body except C as e: handler e], where [catches] decides
    membership in the class [C]. *)
Definition try_except {A} (body : M A) (catches : exception -> bool)
    (handler : exception -> M A) : M A :=
  fun t =>
    match body t with
    | (Raise e, t') => if catches e then handler e t' else (Raise e, t')
    | r => r
    end.

(** [except Exception]: every exception of the model. *)
Definition any_Exception (e : exception) : bool := true.

Declare Scope script_scope.
Delimit Scope script_scope with script.
Notation "x <- c1 ;; c2" := (bind c1 (fun x => c2))
  (at level 100, c1 at next level, right associativity) : script_scope.
Notation "c1 ;; c2" := (bind c1 (fun _ => c2))
  (at level 100, right associativity) : script_scope.
Open Scope script_scope.

(** [for x in l: body x] *)
Fixpoint for_each {A} (body : A -> M unit) (l : list A) : M unit :=
  match l with
  | [] => ret tt
  | x :: l' => body x ;; for_each body l'
  end.

(** [enumerate(l, start)] *)
Definition enumerate {A} (l : list A) (start : nat) : list (nat * A) :=
  zip (seq start (length l)) l.

Definition print (text : str) : M unit :=
  fun t => (Ret tt, t ++ [EvPrint text]).

Section Script.

Variable env : Env.

Definition subprocess_run (argv : list str) (timeout : nat) : M CompletedProcess :=
  fun t => (run_outcome env t argv timeout, t ++ [EvRun argv timeout]).

Definition input (prompt : str) : M str :=
  fun t => (input_outcome env t prompt, t ++ [EvInput prompt]).

(** [int(s)]; the text of the [ValueError] is never looked at by the
    script. *)
Definition int_of (s : str) : M Z :=
  match Py.int (unicode_decimal env) (int_max_str_digits env) s with
  | Some n => ret n
  | None => raise (Exception ValueError (str_lit "invalid literal for int() with base 10"))
  end.

Definition get_adb_devices_with_status : M (list DeviceRecord) :=
  try_except
    (result <- subprocess_run [str_lit "adb"; str_lit "devices"] 10 ;;
     if bool_decide (returncode result <> 0%Z) then
       print (str_lit "ADB命令执行失败: " ++ stderr result) ;;
       ret []
     else
       ret (parse_devices (stdout result)))
    any_Exception
    (fun e =>
       print (str_lit "获取设备列表失败: " ++ exc_str e) ;;
       ret []).

Definition display_online (entry : nat * DeviceRecord) : M unit :=
  let '(i, device) := entry in
  let info := analyze_device device in
  let status_icon :=
    if truthy (default (VBool false) (info !! "is_encrypted"))
    then str_lit "🔒" else str_lit "📶" in
  if bool_decide (info !!! "type" = VStr (str_lit "mdns_wireless")) then
    print (str_lit "   " ++ str_of_nat i ++ str_lit ". " ++ status_icon
           ++ str_lit " " ++ device_id device ++ str_lit " (mDNS无线设备)")
  else if bool_decide (info !!! "type" = VStr (str_lit "wireless")) then
    print (str_lit "   " ++ str_of_nat i ++ str_lit ". 📶 "
           ++ device_id device ++ str_lit " (无线设备)")
  else
    print (str_lit "   " ++ str_of_nat i ++ str_lit ". 🔌 "
           ++ device_id device ++ str_lit " (USB设备)").

Definition display_offline (entry : nat * DeviceRecord) : M unit :=
  let '(i, device) := entry in
  let info := analyze_device device in
  if bool_decide (info !!! "type" = VStr (str_lit "mdns_wireless")) then
    print (str_lit "   " ++ str_of_nat i ++ str_lit ". ⚠️  "
           ++ device_id device ++ str_lit " (mDNS无线设备 - 离线)")
  else if bool_decide (info !!! "type" = VStr (str_lit "wireless")) then
    print (str_lit "   " ++ str_of_nat i ++ str_lit ". ⚠️  "
           ++ device_id device ++ str_lit " (无线设备 - 离线)")
  else
    print (str_lit "   " ++ str_of_nat i ++ str_lit ". ⚠️  "
           ++ device_id device ++ str_lit " (USB设备 - 离线)").

Definition display_devices (devices : list DeviceRecord)
  : M (list DeviceRecord * list DeviceRecord) :=
  print (str_lit "📱 连接的设备:") ;;
  print (repeat_str (str_lit "-") 60) ;;
  let '(online_devices, offline_devices) := partition_devices devices in
  (if bool_decide (online_devices <> []) then
     print (str_lit "✅ 在线设备:") ;;
     for_each display_online (enumerate online_devices 1)
   else ret tt) ;;
  (if bool_decide (offline_devices <> []) then
     print (NEWLINE :: str_lit "❌ 离线设备:") ;;
     for_each display_offline
       (enumerate offline_devices (length online_devices + 1))
   else ret tt) ;;
  print (repeat_str (str_lit "-") 60) ;;
  ret (online_devices, offline_devices).

Definition select_online_device (online_devices : list DeviceRecord)
  : M (option DeviceRecord) :=
  if bool_decide (online_devices = []) then
    print (str_lit "没有在线的设备可用") ;;
    ret None
  else if bool_decide (length online_devices = 1) then
    print (str_lit "自动选择唯一在线设备: "
           ++ from_option device_id [] (online_devices !! 0)) ;;
    ret (online_devices !! 0)
  else
    try_except
      (line <- input (str_lit "请选择在线设备编号: ") ;;
       choice <- int_of line ;;
       if bool_decide (1 <= choice <= Z.of_nat (length online_devices))%Z then
         ret (online_devices !! Z.to_nat (choice - 1))
       else
         print (str_lit "无效的选择") ;;
         ret None)
      isinstance_ValueError
      (fun _ =>
         print (str_lit "请输入数字") ;;
         ret None).

Definition reconnect_offline_device (device_info : DeviceRecord) : M bool :=
  let device_id := device_id device_info in
  print (str_lit "尝试重新连接设备: " ++ device_id) ;;
  try_except
    (subprocess_run [str_lit "adb"; str_lit "disconnect"; device_id] 5 ;;
     if contains_char COLON device_id || startswith device_id (str_lit "adb-") then
       result <- subprocess_run [str_lit "adb"; str_lit "connect"; device_id] 10 ;;
       if contains (str_lit "connected") (stdout result) then
         print (str_lit "✅ 重新连接成功: " ++ device_id) ;;
         ret true
       else
         print (str_lit "❌ 重新连接失败: " ++ stderr result) ;;
         ret false
     else
       print (str_lit "请检查USB连接或设备状态") ;;
       ret false)
    any_Exception
    (fun e =>
       print (str_lit "重新连接过程中出错: " ++ exc_str e) ;;
       ret false).

(** The [for device in offline_devices] loop of [main]; the loop
    variable the script keeps is [online_devices]. *)
Fixpoint reconnect_loop (offline_devices online_devices : list DeviceRecord)
  : M (list DeviceRecord) :=
  match offline_devices with
  | [] => ret online_devices
  | device :: rest =>
      reconnected <- reconnect_offline_device device ;;
      if reconnected then
        devices <- get_adb_devices_with_status ;;
        partitions <- display_devices devices ;;
        let '(online_devices', _) := partitions in
        if bool_decide (online_devices' <> []) then ret online_devices'
        else reconnect_loop rest online_devices'
      else reconnect_loop rest online_devices
  end.

Definition report_selected (selected_device : DeviceRecord) : M unit :=
  let device_info := analyze_device selected_device in
  print (NEWLINE :: str_lit "🎯 选择的设备:") ;;
  print (str_lit "   ID: " ++ device_id selected_device) ;;
  print (str_lit "   类型: " ++ format_value (device_info !!! "type")) ;;
  print (str_lit "   状态: " ++ format_value (device_info !!! "status")) ;;
  print (str_lit "   无线连接: " ++ format_value (device_info !!! "is_wireless")) ;;
  if truthy (default (VBool false) (device_info !! "is_encrypted"))
  then print (str_lit "   加密连接: ✅")
  else ret tt.

Definition main : M (option str) :=
  devices <- get_adb_devices_with_status ;;
  if bool_decide (devices = []) then
    print (str_lit "没有找到任何设备") ;;
    ret None
  else
    partitions <- display_devices devices ;;
    let '(online_devices, offline_devices) := partitions in
    online_devices <-
      (if bool_decide (online_devices = []) && bool_decide (offline_devices <> []) then
         print (str_lit "所有设备都处于离线状态") ;;
         choice <- input (str_lit "是否尝试重新连接离线设备？(y/n): ") ;;
         if lower_eq_y choice then reconnect_loop offline_devices online_devices
         else ret online_devices
       else ret online_devices) ;;
    selected_device <- select_online_device online_devices ;;
    match selected_device with
    | Some selected_device =>
        report_selected selected_device ;;
        ret (Some (device_id selected_device))
    | None => ret None
    end.

End Script.

(** ** Vocabulary of the specification *)

(** [sub] occurs in [s] as a contiguous substring. *)
Definition occurs_in (sub s : str) : Prop :=
  exists before after, s = before ++ sub ++ after.

(** [sep.join(ws)] for a separator of one code point. *)
Fixpoint join_on (sep : char) (ws : list str) : str :=
  match ws with
  | [] => []
  | [w] => w
  | w :: ws' => w ++ sep :: join_on sep ws'
  end.

(** The listing output of the specification's example. *)
Definition example_listing : str :=
  str_lit "List of devices attached"
  ++ NEWLINE :: str_lit "192.168.1.5:5555    device"
  ++ NEWLINE :: str_lit "adb-ABC123._adb-tls-connect._tcp.   offline".

(** A record is online when its status is exactly ['device']. *)
Definition online (device : DeviceRecord) : Prop :=
  status device = str_lit "device".

#[global] Instance online_dec (device : DeviceRecord) : Decision (online device).
Proof. unfold online. apply _. Defined.

Definition is_print (e : event) : Prop :=
  match e with
  | EvPrint _ => True
  | _ => False
  end.

(** [m] returns [a] and does nothing but print, and what it prints does
    not depend on the history. *)
Definition prints_and_returns {A} (m : M A) (a : A) : Prop :=
  exists new, Forall is_print new /\ forall t, m t = (Ret a, t ++ new).

(** What [display_devices] prints for a device list. *)
Definition display_events (devices : list DeviceRecord) : list event :=
  snd (display_devices devices []).

(** A line that holds nothing but white space. *)
Definition blank (line : str) : bool := forallb isspace line.

(** The record a line of the listing stands for: its first two tokens,
    when it has two. *)
Definition record_of_line (line : str) : list DeviceRecord :=
  match split line with
  | device_id :: status :: _ => [Device device_id status]
  | _ => []
  end.

Fixpoint skip_blank (lines : list str) : list str :=
  match lines with
  | [] => []
  | line :: lines' => if blank line then skip_blank lines' else lines
  end.

(** The parse as the specification words it: drop the first line of the
    output, then read a record off every remaining line. *)
Definition records_after_first_line (output : str) : list DeviceRecord :=
  flat_map record_of_line (drop 1 (split_on NEWLINE output)).

(** The same, with the header taken to be the first line that is not
    blank. *)
Definition records_after_header (output : str) : list DeviceRecord :=
  flat_map record_of_line (drop 1 (skip_blank (split_on NEWLINE output))).

(** *** Environments for concrete runs *)

(** The command line of the listing. *)
Definition adb_devices : list str := [str_lit "adb"; str_lit "devices"].

(** An environment whose answers depend on the command line only, with one
    fixed answer to every prompt. *)
Definition fixed_env (run : list str -> result CompletedProcess)
    (answer : result str) : Env :=
  {| run_outcome := fun _ argv _ => run argv;
     input_outcome := fun _ _ => answer;
     unicode_decimal := fun _ => None;
     int_max_str_digits := 4300 |}.

(** An id has the wireless form when it contains [':'] or starts with
    ['adb-']. *)
Definition wireless_form (id : str) : Prop :=
  COLON ∈ id \/ str_lit "adb-" `prefix_of` id.

Definition disconnect_cmd (id : str) : list str :=
  [str_lit "adb"; str_lit "disconnect"; id].

Definition connect_cmd (id : str) : list str :=
  [str_lit "adb"; str_lit "connect"; id].

(** The command lines of the external commands among some events. *)
Definition commands (events : list event) : list (list str) :=
  omap (fun ev => match ev with EvRun argv _ => Some argv | _ => None end) events.

(** The guidance [reconnect_offline_device] prints for a USB device. *)
Abbreviation usb_guidance := (EvPrint (str_lit "请检查USB连接或设备状态")).

(** What [reconnect_offline_device] prints first. *)
Definition attempt_message (id : str) : event :=
  EvPrint (str_lit "尝试重新连接设备: " ++ id).

(** What it prints when a command raises. *)
Definition error_message (e : exception) : event :=
  EvPrint (str_lit "重新连接过程中出错: " ++ exc_str e).

(** What it prints when the connect command reports a connection. *)
Definition success_message (id : str) : event :=
  EvPrint (str_lit "✅ 重新连接成功: " ++ id).

(** After the history [t], the connect command for [id] completes and its
    captured standard output contains ['connected']. *)
Definition connected (env : Env) (t : trace) (id : str) : Prop :=
  exists result,
    run_outcome env t (connect_cmd id) 10 = Ret result /\
    occurs_in (str_lit "connected") (stdout result).

(** A command line whose second word is [disconnect]. *)
Definition is_disconnect (argv : list str) : Prop :=
  argv !! 1 = Some (str_lit "disconnect").

#[global] Instance is_disconnect_dec (argv : list str) : Decision (is_disconnect argv).
Proof. unfold is_disconnect. apply _. Defined.

(** The question [main] asks before it reconnects, and the message before
    it. *)
Abbreviation confirm_prompt := (str_lit "是否尝试重新连接离线设备？(y/n): ").
Abbreviation all_offline := (EvPrint (str_lit "所有设备都处于离线状态")).

(** What the reconnection loop of [main] does, read off the events
    [events] it adds to the history [t] while it works through
    [offline_devices] and ends with [online_devices]:
    - the disconnect commands, which open the attempts, are those of the
      first [k] offline devices, in order, and of all of them when no
      online device came up;
    - a connect command that reports a connection is followed at once by
      the success message and a new listing;
    - every listing of the loop comes right after such a connect command
      and its success message, and is followed by the display of the
      devices it returned; when one of them is online the loop ends there,
      with the online devices of that listing. *)
Definition reconnection_events (env : Env) (t : trace)
    (offline_devices online_devices : list DeviceRecord)
    (events : list event) : Prop :=
  (exists k,
     filter is_disconnect (commands events)
     = (fun d => disconnect_cmd (device_id d)) <$> take k offline_devices /\
     (online_devices = [] -> k = length offline_devices)) /\
  (forall before after id,
     events = before ++ EvRun (connect_cmd id) 10 :: after ->
     connected env (t ++ before) id ->
     exists after',
       after = success_message id :: EvRun adb_devices 10 :: after') /\
  (forall before after,
     events = before ++ EvRun adb_devices 10 :: after ->
     exists before' id devices messages after',
       before = before' ++ [EvRun (connect_cmd id) 10; success_message id] /\
       connected env (t ++ before') id /\
       get_adb_devices_with_status env (t ++ before)
       = (Ret devices, (t ++ before) ++ EvRun adb_devices 10 :: messages) /\
       after = messages ++ display_events devices ++ after' /\
       (filter online devices <> [] ->
        after' = [] /\ online_devices = filter online devices)).

(** A USB serial number. *)
Definition usb_device : DeviceRecord :=
  Device (str_lit "R58M12ABCDE") (str_lit "offline").

(** An environment in which every external command times out. *)
Definition timeout_env : Env :=
  fixed_env
    (fun _ => Raise (Exception TimeoutExpired (str_lit "timed out after 5 seconds")))
    (Ret []).

(** The prompt of [select_online_device]. *)
Abbreviation select_prompt := (str_lit "请选择在线设备编号: ").

(** A listing that starts with an empty line. *)
Definition listing_after_empty_line : str :=
  NEWLINE :: str_lit "List of devices attached"
  ++ NEWLINE :: str_lit "emulator-5554   device"
  ++ [NEWLINE].

(** Two wireless devices, both offline, and the first of them online. *)
Definition wifi_a : str := str_lit "10.0.0.2:5555".
Definition wifi_b : str := str_lit "10.0.0.3:5555".

Definition listing_both_offline : str :=
  str_lit "List of devices attached"
  ++ NEWLINE :: wifi_a ++ str_lit "   offline"
  ++ NEWLINE :: wifi_b ++ str_lit "   offline".

Definition listing_first_online : str :=
  str_lit "List of devices attached"
  ++ NEWLINE :: wifi_a ++ str_lit "   device"
  ++ NEWLINE :: wifi_b ++ str_lit "   offline".

(** The user answers [y]; every connect command fails, and the listing
    never changes. *)
Definition unreachable_env : Env :=
  fixed_env
    (fun argv =>
       if bool_decide (argv = adb_devices)
       then Ret (Completed 0 listing_both_offline [])
       else Ret (Completed 1 [] (str_lit "failed to connect")))
    (Ret (str_lit "y")).

(** The user answers [y]; the connect commands report a connection, and
    once the first device has been connected the listing shows it online. *)
Definition reachable_env : Env :=
  {| run_outcome := fun t argv _ =>
       if bool_decide (argv = adb_devices) then
         if bool_decide (connect_cmd wifi_a ∈ commands t)
         then Ret (Completed 0 listing_first_online [])
         else Ret (Completed 0 listing_both_offline [])
       else Ret (Completed 0 (str_lit "connected to " ++ wifi_a) []);
     input_outcome := fun _ _ => Ret (str_lit "y");
     unicode_decimal := fun _ => None;
     int_max_str_digits := 4300 |}.

(** [tokens_of s tokens]: the string [s] is white space, then the first
    token, then white space and so on; a token is a non-empty run without
    white space, and a token is followed by white space or by the end of
    the string.  This is what splitting on white space means. *)
Inductive tokens_of : str -> list str -> Prop :=
| tokens_of_space ws :
    Forall (fun c => isspace c = true) ws ->
    tokens_of ws []
| tokens_of_token ws tok s tokens :
    Forall (fun c => isspace c = true) ws ->
    tok <> [] ->
    Forall (fun c => isspace c = false) tok ->
    (s = [] \/ exists c s', s = c :: s' /\ isspace c = true) ->
    tokens_of s tokens ->
    tokens_of (ws ++ tok ++ s) (tok :: tokens).

(** Histories are compared after re-association to the right. *)
Ltac same_history :=
  repeat (progress (rewrite <- ?app_assoc; cbn [app])); try done.

(** *** Vocabulary of the further properties *)

(** A token: a non-empty string without white space. *)
Definition token (w : str) : Prop :=
  w <> [] /\ Forall (fun c => isspace c = false) w.

(** A record whose id and status are tokens. *)
Definition well_formed (device : DeviceRecord) : Prop :=
  token (device_id device) /\ token (status device).

Definition TAB : char := 9%N.

(** A listing as [adb devices] writes it: a header line, then one line
    [id<TAB>status] for each device. *)
Definition render_listing (header : str) (devices : list DeviceRecord) : str :=
  header ++ flat_map (fun d => NEWLINE :: device_id d ++ TAB :: status d) devices.

(** The last step of [main]: the selection, and the report of the device
    selected. *)
Definition select_and_report (env : Env) (online_devices : list DeviceRecord)
  : M (option str) :=
  selected_device <- select_online_device env online_devices ;;
  match selected_device with
  | Some selected_device =>
      report_selected selected_device ;;
      ret (Some (device_id selected_device))
  | None => ret None
  end.

(** The prompts among some events. *)
Definition prompts (events : list event) : list str :=
  omap (fun ev => match ev with EvInput prompt => Some prompt | _ => None end) events.

(** The disconnect or the connect command of one of [devices]. *)
Definition attempt_command (devices : list DeviceRecord) (argv : list str) : Prop :=
  exists d, d ∈ devices /\
    (argv = disconnect_cmd (device_id d) \/ argv = connect_cmd (device_id d)).

(** The events of reconnection attempts on [devices]: messages, listings
    and the commands of the attempts; no prompt. *)
Definition attempt_event (devices : list DeviceRecord) (ev : event) : Prop :=
  match ev with
  | EvPrint _ => True
  | EvRun argv _ => argv = adb_devices \/ attempt_command devices argv
  | EvInput _ => False
  end.

(** The messages of [main] and of the selection when there is nothing to
    choose from. *)
Abbreviation none_found := (EvPrint (str_lit "没有找到任何设备")).
Abbreviation none_online := (EvPrint (str_lit "没有在线的设备可用")).

(** A line of the display for the device [id] under the number [n]. *)
Definition numbered (n : nat) (id text : str) : Prop :=
  exists mark note,
    text = str_lit "   " ++ str_of_nat n ++ str_lit ". " ++ mark ++ id ++ note.

(** An environment without the [adb] program, and environments in which
    every command prints the same listing and exits with code 0. *)
Definition no_adb_env : Env :=
  fixed_env
    (fun _ => Raise (Exception FileNotFoundError
                       (str_lit "[Errno 2] No such file or directory: 'adb'")))
    (Ret []).

Definition listing_env (listing : str) (answer : result str) : Env :=
  fixed_env (fun _ => Ret (Completed 0 listing [])) answer.

Definition end_of_input : exception :=
  Exception EOFError (str_lit "EOF when reading a line").


(** ** Properties of the builtins *)

Section Builtins.

Lemma startswith_prefix (s p : str) :
  startswith s p = true <-> p `prefix_of` s.
Proof.
  revert s. induction p as [|c p IH]; intros s; simpl.
  - split; [intros _; apply prefix_nil | by destruct s].
  - destruct s as [|d s]; simpl.
    + split; [done | intros [k Hk]; discriminate].
    + rewrite andb_true_iff, N.eqb_eq, IH. split.
      * intros [-> Hp]. by apply prefix_cons.
      * intros [k Hk]. injection Hk as -> ->. split; [done | by exists k].
Qed.

Lemma contains_occurs (sub s : str) :
  contains sub s = true <-> occurs_in sub s.
Proof.
  induction s as [|c s IH]; cbn [contains].
  - rewrite orb_false_r, startswith_prefix. split.
    + intros [k Hk]. by exists [], k.
    + intros ([|b before] & after & H); [by exists after | discriminate].
  - rewrite orb_true_iff, startswith_prefix, IH. split.
    + intros [[k Hk] | (before & after & H)].
      * by exists [], k.
      * exists (c :: before), after. by rewrite H.
    + intros ([|b before] & after & H).
      * left. by exists after.
      * right. injection H as -> ->. by exists before, after.
Qed.

Lemma contains_char_elem (c : char) (s : str) :
  contains_char c s = true <-> c ∈ s.
Proof.
  unfold contains_char. rewrite contains_occurs. split.
  - intros (before & after & ->). set_solver.
  - intros (before & after & ->)%list_elem_of_split. by exists before, after.
Qed.

Lemma split_on_not_nil (sep : char) (s : str) : split_on sep s <> [].
Proof.
  destruct s as [|c s]; simpl; [done |].
  destruct (c =? sep)%N; [done |]. by destruct (split_on sep s).
Qed.

Lemma split_on_sep (sep : char) (s : str) :
  split_on sep (sep :: s) = [] :: split_on sep s.
Proof. simpl. by rewrite N.eqb_refl. Qed.

(** Reading a run without separator extends the first segment. *)
Lemma split_on_app (sep : char) (w s : str) :
  sep ∉ w ->
  split_on sep (w ++ s) =
    (w ++ hd [] (split_on sep s)) :: tl (split_on sep s).
Proof.
  induction w as [|c w IH]; intros Hw; simpl.
  - pose proof (split_on_not_nil sep s). by destruct (split_on sep s).
  - apply not_elem_of_cons in Hw as [Hc Hw].
    destruct (N.eqb_spec c sep) as [->|_]; [done |].
    by rewrite IH.
Qed.

Lemma split_on_segment (sep : char) (w : str) :
  sep ∉ w -> split_on sep w = [w].
Proof.
  intros Hw. rewrite <- (app_nil_r w) at 1.
  rewrite split_on_app by done. simpl. by rewrite app_nil_r.
Qed.

(** [split_on] inverts [join_on] on separator-free segments: the
    segments of [s] are the only way to write [s] as such a join. *)
Lemma split_on_join (sep : char) (ws : list str) :
  ws <> [] -> Forall (fun w => sep ∉ w) ws ->
  split_on sep (join_on sep ws) = ws.
Proof.
  induction ws as [|w ws IH]; [done |]. intros _ Hws.
  apply Forall_cons in Hws as [Hw Hws].
  destruct ws as [|w' ws]; [by apply split_on_segment |].
  change (join_on sep (w :: w' :: ws)) with (w ++ sep :: join_on sep (w' :: ws)).
  rewrite split_on_app, split_on_sep by done. simpl.
  rewrite app_nil_r. f_equal. by apply IH.
Qed.

Lemma join_on_split (sep : char) (s : str) :
  join_on sep (split_on sep s) = s.
Proof.
  induction s as [|c s IH]; [done |]. simpl.
  pose proof (split_on_not_nil sep s) as Hne.
  destruct (N.eqb_spec c sep) as [->|_].
  - simpl. destruct (split_on sep s); [done |]. by rewrite IH.
  - destruct (split_on sep s) as [|w [|w' ws]]; [done | |];
      simpl in *; by rewrite IH.
Qed.

Lemma split_on_no_sep (sep : char) (s : str) :
  Forall (fun w => sep ∉ w) (split_on sep s).
Proof.
  induction s as [|c s IH]; simpl.
  - repeat constructor. apply not_elem_of_nil.
  - destruct (N.eqb_spec c sep) as [->|Hc].
    + constructor; [apply not_elem_of_nil | done].
    + destruct (split_on sep s) as [|w ws].
      * repeat constructor. apply not_elem_of_cons. split; [congruence |].
        apply not_elem_of_nil.
      * apply Forall_cons in IH as [Hw Hws]. constructor; [| done].
        apply not_elem_of_cons. split; [congruence | done].
Qed.

End Builtins.

(** ** Device Classifier *)

Section Classifier.

Implicit Types (device_info : DeviceRecord) (k : string).

Lemma analyze_device_mdns device_info :
  startswith (device_id device_info) (str_lit "adb-") = true ->
  analyze_device device_info =
    let parts := split_on DOT (device_id device_info) in
    list_to_map
      [ ("type", VStr (str_lit "mdns_wireless"));
        ("full_id", VStr (device_id device_info));
        ("base_id", VStr (nth 0 parts []));
        ("service_type", VStr (if bool_decide (1 < length parts) then nth 1 parts [] else []));
        ("protocol", VStr (if bool_decide (2 < length parts) then nth 2 parts [] else []));
        ("is_encrypted", VBool (contains (str_lit "_tls-connect") (device_id device_info)));
        ("is_wireless", VBool true);
        ("status", VStr (status device_info)) ].
Proof. intros H. unfold analyze_device. by rewrite H. Qed.

Lemma analyze_device_type device_info :
  analyze_device device_info !! "type" =
    Some (VStr (if startswith (device_id device_info) (str_lit "adb-")
                then str_lit "mdns_wireless"
                else if contains_char COLON (device_id device_info)
                     then str_lit "wireless" else str_lit "usb")).
Proof.
  unfold analyze_device.
  destruct (startswith _ _); [done |].
  by destruct (contains_char _ _).
Qed.

Lemma nth_lookup_default (parts : list str) (i : nat) :
  nth i parts [] = default ([] : str) (parts !! i).
Proof.
  revert i. induction parts as [|w parts IH]; intros [|i]; simpl; auto.
Qed.

Lemma nth_guarded (parts : list str) (i : nat) :
  (if bool_decide (i < length parts) then nth i parts [] else [])
  = default ([] : str) (parts !! i).
Proof.
  case_bool_decide as Hi; [apply nth_lookup_default |].
  assert (parts !! i = None) as -> by (apply lookup_ge_None_2; lia).
  done.
Qed.

End Classifier.

(** C1.  [analyze_device] puts every record into one of the three variants
    according to the lexical form of its id.  An id that starts with
    ['adb-'] has type ['mdns_wireless'], and then [is_encrypted] is true
    exactly when ['_tls-connect'] occurs somewhere in the id; otherwise an
    id that contains [':'] has type ['wireless']; otherwise the type is
    ['usb'].  The type entry is always one of these three strings. *)
Theorem analyze_device_classification (device_info : DeviceRecord) :
  let id := device_id device_info in
  let info := analyze_device device_info in
  (str_lit "adb-" `prefix_of` id ->
     info !! "type" = Some (VStr (str_lit "mdns_wireless")) /\
     exists b : bool,
       info !! "is_encrypted" = Some (VBool b) /\
       (b = true <-> occurs_in (str_lit "_tls-connect") id)) /\
  (~ str_lit "adb-" `prefix_of` id -> COLON ∈ id ->
     info !! "type" = Some (VStr (str_lit "wireless"))) /\
  (~ str_lit "adb-" `prefix_of` id -> COLON ∉ id ->
     info !! "type" = Some (VStr (str_lit "usb"))) /\
  (exists ty : str,
     info !! "type" = Some (VStr ty) /\
     ty ∈ [str_lit "mdns_wireless"; str_lit "wireless"; str_lit "usb"]).
Proof.
  intros id info. subst info.
  rewrite analyze_device_type. fold id.
  split; [| split; [| split]].
  - intros Hp%startswith_prefix. split; [by rewrite Hp |].
    rewrite analyze_device_mdns by done.
    exists (contains (str_lit "_tls-connect") id).
    split; [done | apply contains_occurs].
  - intros Hp Hc%contains_char_elem.
    destruct (startswith id _) eqn:E; [by apply startswith_prefix in E |].
    by rewrite Hc.
  - intros Hp Hc.
    destruct (startswith id _) eqn:E; [by apply startswith_prefix in E |].
    destruct (contains_char COLON id) eqn:E'; [by apply contains_char_elem in E' |].
    done.
  - eexists. split; [done |].
    destruct (startswith id _); [set_solver |].
    destruct (contains_char COLON id); set_solver.
Qed.

Lemma analyze_device_classification_witness :
  (analyze_device (Device (str_lit "adb-X._adb-tls-connect._tcp") (str_lit "device"))
     !! "type" = Some (VStr (str_lit "mdns_wireless"))) /\
  (analyze_device (Device (str_lit "10.0.0.2:5555") (str_lit "device"))
     !! "type" = Some (VStr (str_lit "wireless"))) /\
  (analyze_device (Device (str_lit "R58M12ABCDE") (str_lit "offline"))
     !! "type" = Some (VStr (str_lit "usb"))).
Proof.
  split; [| split].
  - apply (analyze_device_classification
             (Device (str_lit "adb-X._adb-tls-connect._tcp") (str_lit "device"))).
    apply startswith_prefix. vm_compute. reflexivity.
  - apply (analyze_device_classification
             (Device (str_lit "10.0.0.2:5555") (str_lit "device"))).
    + intros H%startswith_prefix. vm_compute in H. discriminate.
    + apply contains_char_elem. vm_compute. reflexivity.
  - apply (analyze_device_classification
             (Device (str_lit "R58M12ABCDE") (str_lit "offline"))).
    + intros H%startswith_prefix. vm_compute in H. discriminate.
    + intros H%contains_char_elem. vm_compute in H. discriminate.
Defined.

(** Two records with the same id classify alike: apart from the copied
    status, every entry of the result is determined by the id. *)
Lemma analyze_device_id_only (d1 d2 : DeviceRecord) (k : string) :
  device_id d1 = device_id d2 -> k <> "status" ->
  analyze_device d1 !! k = analyze_device d2 !! k.
Proof.
  intros Hid Hk. unfold analyze_device. rewrite Hid.
  destruct (startswith _ _); [| destruct (contains_char _ _)];
    cbn [list_to_map foldr uncurry fst snd];
    rewrite !lookup_insert;
    repeat (case_decide; [congruence |]);
    done.
Qed.

(** C9.  An id that starts with ['adb-'] is cut at every ['.'].  The
    segments are the one way to write the id as dot-free pieces joined by
    dots; [base_id] is the first segment, [service_type] the second one
    and [protocol] the third one, each of the latter two being the empty
    string when the id has no such segment.  The result is a function of
    the record alone: the status is copied, and every other entry depends
    only on the id. *)
Theorem analyze_device_mdns_segments (id st : str) :
  str_lit "adb-" `prefix_of` id ->
  let info := analyze_device (Device id st) in
  exists segments : list str,
    (join_on DOT segments = id /\ segments <> [] /\
     Forall (fun w => DOT ∉ w) segments /\
     forall ws, ws <> [] -> Forall (fun w => DOT ∉ w) ws ->
                join_on DOT ws = id -> ws = segments) /\
    info !! "base_id" = Some (VStr (default [] (segments !! 0))) /\
    info !! "service_type" = Some (VStr (default [] (segments !! 1))) /\
    info !! "protocol" = Some (VStr (default [] (segments !! 2))) /\
    info !! "status" = Some (VStr st) /\
    forall st' k, k <> "status" ->
      analyze_device (Device id st') !! k = info !! k.
Proof.
  intros Hp%startswith_prefix info.
  exists (split_on DOT id). split; [| split; [| split; [| split; [| split]]]].
  - split; [apply join_on_split |].
    split; [apply split_on_not_nil |].
    split; [apply split_on_no_sep |].
    intros ws Hne Hws <-. symmetry. by apply split_on_join.
  - subst info. rewrite analyze_device_mdns by done. simpl device_id.
    rewrite <- nth_lookup_default. done.
  - subst info. rewrite analyze_device_mdns by done. simpl device_id.
    rewrite <- nth_guarded. done.
  - subst info. rewrite analyze_device_mdns by done. simpl device_id.
    rewrite <- nth_guarded. done.
  - subst info. rewrite analyze_device_mdns by done. done.
  - intros st' k Hk. by apply analyze_device_id_only.
Qed.

Lemma analyze_device_mdns_segments_witness :
  exists segments : list str,
    segments = [str_lit "adb-ABC123"; str_lit "_adb-tls-connect"; str_lit "_tcp"; []] /\
    analyze_device
      (Device (str_lit "adb-ABC123._adb-tls-connect._tcp.") (str_lit "offline"))
      !! "service_type" = Some (VStr (default [] (segments !! 1))).
Proof.
  destruct (analyze_device_mdns_segments
              (str_lit "adb-ABC123._adb-tls-connect._tcp.") (str_lit "offline"))
    as (segments & (Hjoin & Hne & Hdots & Huniq) & _ & Hservice & _).
  { apply startswith_prefix. vm_compute. reflexivity. }
  exists segments. split; [| exact Hservice].
  symmetry. apply Huniq.
  - done.
  - repeat constructor; intros H%contains_char_elem; vm_compute in H; discriminate.
  - vm_compute. reflexivity.
Defined.

(** ** Device Lister and Presenter on the example of the specification *)

(** C2.  The listing of the specification's example parses into exactly two
    records.  The first one, [192.168.1.5:5555], has type ['wireless'] and
    status ['device'], so it is online; the second one,
    [adb-ABC123._adb-tls-connect._tcp.], has type ['mdns_wireless'] and is
    offline.  Its [is_encrypted] entry is false: the service type of the id
    reads [_adb-tls-connect], with a hyphen and not an underscore before
    [tls], so the marker ['_tls-connect'] that [analyze_device] looks for
    does not occur in it. *)
Theorem example_listing_two_records :
  let first := Device (str_lit "192.168.1.5:5555") (str_lit "device") in
  let second :=
    Device (str_lit "adb-ABC123._adb-tls-connect._tcp.") (str_lit "offline") in
  parse_devices example_listing = [first; second] /\
  analyze_device first !! "type" = Some (VStr (str_lit "wireless")) /\
  analyze_device second !! "type" = Some (VStr (str_lit "mdns_wireless")) /\
  analyze_device second !! "is_encrypted" = Some (VBool false) /\
  contains (str_lit "-tls-connect") (device_id second) = true /\
  partition_devices (parse_devices example_listing) = ([first], [second]).
Proof.
  intros first second.
  assert (parse_devices example_listing = [first; second]) as Hparse
    by (vm_compute; reflexivity).
  rewrite Hparse.
  split; [done |].
  repeat split; vm_compute; reflexivity.
Qed.

(** ** Device Presenter *)

Section Presenter.

Lemma prints_and_returns_ret {A} (a : A) : prints_and_returns (ret a) a.
Proof. exists []. split; [constructor |]. intros t. by rewrite app_nil_r. Qed.

Lemma prints_and_returns_print (text : str) : prints_and_returns (print text) tt.
Proof. exists [EvPrint text]. split; [by repeat constructor | done]. Qed.

Lemma prints_and_returns_bind {A B} (m : M A) (k : A -> M B) (a : A) (b : B) :
  prints_and_returns m a -> prints_and_returns (k a) b ->
  prints_and_returns (bind m k) b.
Proof.
  intros (n1 & P1 & E1) (n2 & P2 & E2).
  exists (n1 ++ n2). split; [by apply Forall_app |].
  intros t. unfold bind. by rewrite E1, E2, app_assoc.
Qed.

Lemma prints_and_returns_for_each {A} (body : A -> M unit) (l : list A) :
  (forall x, prints_and_returns (body x) tt) ->
  prints_and_returns (for_each body l) tt.
Proof.
  intros Hbody. induction l as [|x l IH]; simpl.
  - apply prints_and_returns_ret.
  - by eapply prints_and_returns_bind.
Qed.

Lemma display_online_prints entry : prints_and_returns (display_online entry) tt.
Proof.
  destruct entry as [i device]. unfold display_online.
  repeat case_bool_decide; apply prints_and_returns_print.
Qed.

Lemma display_offline_prints entry : prints_and_returns (display_offline entry) tt.
Proof.
  destruct entry as [i device]. unfold display_offline.
  repeat case_bool_decide; apply prints_and_returns_print.
Qed.

(** The partition loop computes the two filters. *)
Lemma partition_loop (devices online_devices offline_devices : list DeviceRecord) :
  fold_left partition_step devices (online_devices, offline_devices) =
    (online_devices ++ filter online devices,
     offline_devices ++ filter (fun d => ~ online d) devices).
Proof.
  revert online_devices offline_devices.
  induction devices as [|d devices IH]; intros on off; simpl.
  - by rewrite !app_nil_r.
  - rewrite filter_cons, (filter_cons (fun d => ~ online d)).
    case_bool_decide as Hd; rewrite IH.
    + rewrite decide_True, decide_False by (unfold online; auto).
      by rewrite <- app_assoc.
    + rewrite decide_False, decide_True by (unfold online; auto).
      by rewrite <- app_assoc.
Qed.

Lemma partition_devices_filter (devices : list DeviceRecord) :
  partition_devices devices =
    (filter online devices, filter (fun d => ~ online d) devices).
Proof. unfold partition_devices. by rewrite partition_loop. Qed.

Lemma display_devices_returns (devices : list DeviceRecord) :
  prints_and_returns (display_devices devices) (partition_devices devices).
Proof.
  unfold display_devices.
  destruct (partition_devices devices) as [online_devices offline_devices].
  eapply prints_and_returns_bind; [apply prints_and_returns_print |].
  eapply prints_and_returns_bind; [apply prints_and_returns_print |].
  eapply prints_and_returns_bind.
  { instantiate (1 := tt). case_bool_decide; [| apply prints_and_returns_ret].
    eapply prints_and_returns_bind; [apply prints_and_returns_print |].
    apply prints_and_returns_for_each, display_online_prints. }
  eapply prints_and_returns_bind.
  { instantiate (1 := tt). case_bool_decide; [| apply prints_and_returns_ret].
    eapply prints_and_returns_bind; [apply prints_and_returns_print |].
    apply prints_and_returns_for_each, display_offline_prints. }
  eapply prints_and_returns_bind; [apply prints_and_returns_print |].
  apply prints_and_returns_ret.
Qed.

Lemma display_devices_run (devices : list DeviceRecord) (t : trace) :
  display_devices devices t
  = (Ret (partition_devices devices), t ++ display_events devices).
Proof.
  destruct (display_devices_returns devices) as (new & _ & Hrun).
  unfold display_events. by rewrite Hrun, (Hrun []).
Qed.

Lemma display_events_print (devices : list DeviceRecord) :
  Forall is_print (display_events devices).
Proof.
  destruct (display_devices_returns devices) as (new & Hnew & Hrun).
  unfold display_events. by rewrite (Hrun []).
Qed.

End Presenter.

(** C3.  From every history and for every device list, [display_devices]
    returns (after printing, and nothing else) a pair [(online, offline)]
    in which [online] holds exactly the records whose status is ['device']
    and [offline] all the other ones.  Every record of the input is in
    exactly one of the two lists, each list keeps the relative order of the
    input, and the two lists together are a permutation of the input. *)
Theorem display_devices_partition (devices : list DeviceRecord) (t : trace) :
  exists online_devices offline_devices new,
    display_devices devices t = (Ret (online_devices, offline_devices), t ++ new) /\
    Forall is_print new /\
    online_devices = filter (fun d => status d = str_lit "device") devices /\
    offline_devices = filter (fun d => status d <> str_lit "device") devices /\
    (forall d, d ∈ devices ->
       (d ∈ online_devices /\ d ∉ offline_devices) \/
       ((d ∉ online_devices) /\ d ∈ offline_devices)) /\
    online_devices `sublist_of` devices /\
    offline_devices `sublist_of` devices /\
    devices ≡ₚ online_devices ++ offline_devices.
Proof.
  pose proof (display_devices_run devices t) as Hrun.
  rewrite partition_devices_filter in Hrun.
  eexists _, _, (display_events devices). split; [exact Hrun |].
  split; [apply display_events_print |].
  split; [done |]. split; [done |].
  split; [| split; [| split]].
  - intros d Hd. rewrite !list_elem_of_filter.
    destruct (decide (online d)); [left | right]; tauto.
  - apply sublist_filter.
  - apply sublist_filter.
  - symmetry. apply (filter_app_complement online).
Qed.

(** ** Device Lister: parsing *)

Section Parsing.

Implicit Types (s ws line tok : str) (lines : list str).

Lemma lstrip_spec s :
  exists ws, s = ws ++ lstrip s /\ Forall (fun c => isspace c = true) ws.
Proof.
  induction s as [|c s (ws & E & Hws)]; [by exists [] |]. simpl.
  destruct (isspace c) eqn:Hc; [| by exists []].
  exists (c :: ws). split; [by rewrite E at 1 | by constructor].
Qed.

Lemma rstrip_spec s :
  exists ws, s = rstrip s ++ ws /\ Forall (fun c => isspace c = true) ws.
Proof.
  unfold rstrip. destruct (lstrip_spec (reverse s)) as (ws & E & Hws).
  exists (reverse ws). split; [| by apply Forall_reverse].
  rewrite <- reverse_app, <- E. by rewrite reverse_involutive.
Qed.

Lemma strip_spec s :
  exists before after,
    s = before ++ strip s ++ after /\
    Forall (fun c => isspace c = true) before /\
    Forall (fun c => isspace c = true) after.
Proof.
  destruct (lstrip_spec s) as (before & E1 & H1).
  destruct (rstrip_spec (lstrip s)) as (after & E2 & H2).
  exists before, after. unfold strip. by rewrite <- E2.
Qed.

Lemma split_go_space tok c s :
  isspace c = true ->
  split_go tok (c :: s) = split_go tok [] ++ split s.
Proof. intros Hc. simpl. rewrite Hc. by destruct tok. Qed.

(** Trailing white space ends the current token and adds none. *)
Lemma split_go_trailing tok s ws :
  Forall (fun c => isspace c = true) ws ->
  split_go tok (s ++ ws) = split_go tok s.
Proof.
  intros Hws. revert tok. induction s as [|c s IH]; intros tok.
  - simpl. revert tok. induction Hws as [|c ws Hc _ IH]; intros tok; [done |].
    rewrite split_go_space by done. unfold split. rewrite IH.
    simpl. by rewrite app_nil_r.
  - simpl. destruct (isspace c); [| apply IH].
    destruct tok; by rewrite IH.
Qed.

Lemma split_leading ws s :
  Forall (fun c => isspace c = true) ws -> split (ws ++ s) = split s.
Proof.
  induction 1 as [|c ws Hc _ IH]; [done |].
  unfold split in *. simpl. by rewrite Hc.
Qed.

Lemma split_strip s : split (strip s) = split s.
Proof.
  destruct (strip_spec s) as (before & after & E & Hb & Ha).
  rewrite E at 2. rewrite split_leading by done.
  unfold split. by rewrite split_go_trailing.
Qed.

Lemma blank_Forall line :
  blank line = true <-> Forall (fun c => isspace c = true) line.
Proof.
  unfold blank. induction line as [|c line IH]; simpl.
  - split; [constructor | done].
  - rewrite andb_true_iff, Forall_cons, IH. done.
Qed.

Lemma split_blank line : blank line = true -> split line = [].
Proof.
  intros H%blank_Forall.
  rewrite <- (app_nil_r line). by apply split_leading.
Qed.

Lemma split_go_not_blank tok s :
  tok <> [] -> split_go tok s <> [].
Proof.
  revert tok. induction s as [|c s IH]; intros tok Htok; simpl.
  - by destruct tok.
  - destruct (isspace c); [by destruct tok |].
    apply IH. by destruct tok.
Qed.

Lemma split_not_blank line : blank line = false -> split line <> [].
Proof.
  unfold blank, split. induction line as [|c line IH]; [done |]. simpl.
  destruct (isspace c); simpl; [done |]. intros _.
  by apply split_go_not_blank.
Qed.

(** One round of the parsing loop appends the record of the line. *)
Lemma parse_line_record (devices : list DeviceRecord) line :
  parse_line devices line = devices ++ record_of_line line.
Proof.
  unfold parse_line, record_of_line.
  case_bool_decide as Hline.
  - rewrite split_strip.
    destruct (split line) as [|device_id [|status parts]]; simpl.
    + by rewrite app_nil_r.
    + by rewrite app_nil_r.
    + done.
  - rewrite <- split_strip, Hline. simpl. by rewrite app_nil_r.
Qed.

Lemma parse_loop lines (devices : list DeviceRecord) :
  fold_left parse_line lines devices = devices ++ flat_map record_of_line lines.
Proof.
  revert devices. induction lines as [|line lines IH]; intros devices; simpl.
  - by rewrite app_nil_r.
  - by rewrite IH, parse_line_record, <- app_assoc.
Qed.

(** A run without white space extends the token that is being read. *)
Lemma split_go_word tok w s :
  Forall (fun c => isspace c = false) w ->
  split_go tok (w ++ s) = split_go (tok ++ w) s.
Proof.
  intros Hw. revert tok. induction Hw as [|c w Hc _ IH]; intros tok.
  - by rewrite app_nil_r.
  - simpl. rewrite Hc, IH. by rewrite <- app_assoc.
Qed.

(** [split] returns the tokens of the string, and they are its only
    tokens. *)
Lemma split_tokens_of s tokens : tokens_of s tokens -> split s = tokens.
Proof.
  induction 1 as [ws Hws | ws tok s tokens Hws Htok Hns Hs _ IH].
  - rewrite <- (app_nil_r ws). by apply split_leading.
  - rewrite split_leading by done. unfold split.
    rewrite split_go_word by done. simpl.
    destruct Hs as [-> | (c & s' & -> & Hc)].
    + simpl in *. destruct tok; [done |]. by rewrite <- IH.
    + unfold split in IH. simpl in *. rewrite Hc in *.
      destruct tok; [done |]. by rewrite IH.
Qed.

Lemma tokens_of_leading c s tokens :
  isspace c = true -> tokens_of s tokens -> tokens_of (c :: s) tokens.
Proof.
  intros Hc H. destruct H as [ws Hws | ws tok s tokens Hws Htok Hns Hs H].
  - apply tokens_of_space. by constructor.
  - apply (tokens_of_token (c :: ws)); try done. by constructor.
Qed.

Lemma tokens_of_extend c s tokens :
  isspace c = false -> tokens_of s tokens ->
  exists tok tokens', tokens_of (c :: s) (tok :: tokens').
Proof.
  intros Hc H. destruct H as [ws Hws | ws tok s tokens Hws Htok Hns Hs H].
  - exists [c], []. apply (tokens_of_token [] [c] ws []); try done.
    + by repeat constructor.
    + destruct ws as [|d ws]; [by left | right].
      apply Forall_cons in Hws as [Hd _]. by exists d, ws.
    + by apply tokens_of_space.
  - destruct ws as [|d ws].
    + exists (c :: tok), tokens.
      apply (tokens_of_token [] (c :: tok) s tokens); try done.
      by constructor.
    + exists [c], (tok :: tokens).
      apply (tokens_of_token [] [c] ((d :: ws) ++ tok ++ s) (tok :: tokens));
        try done.
      * by repeat constructor.
      * right. apply Forall_cons in Hws as [Hd _]. by eexists d, _.
      * by apply tokens_of_token.
Qed.

Lemma tokens_of_split s : tokens_of s (split s).
Proof.
  assert (exists tokens, tokens_of s tokens) as (tokens & H).
  { induction s as [|c s (tokens & IH)].
    - exists []. by apply tokens_of_space.
    - destruct (isspace c) eqn:Hc.
      + exists tokens. by apply tokens_of_leading.
      + destruct (tokens_of_extend c s tokens Hc IH) as (tok & tokens' & H).
        by eexists. }
  by rewrite (split_tokens_of s tokens H).
Qed.

Lemma record_of_line_blank line : blank line = true -> record_of_line line = [].
Proof. intros H. unfold record_of_line. by rewrite split_blank. Qed.

Lemma record_of_line_trailing line ws :
  Forall (fun c => isspace c = true) ws ->
  record_of_line (line ++ ws) = record_of_line line.
Proof. intros H. unfold record_of_line, split. by rewrite split_go_trailing. Qed.

Lemma records_blank lines :
  Forall (fun line => blank line = true) lines ->
  flat_map record_of_line lines = [].
Proof.
  induction 1 as [|line lines H _ IH]; [done |]. simpl.
  by rewrite record_of_line_blank, IH.
Qed.

Lemma skip_blank_all lines :
  Forall (fun line => blank line = true) lines -> skip_blank lines = [].
Proof. induction 1 as [|line lines H _ IH]; [done |]. simpl. by rewrite H. Qed.

Lemma blank_app line ws :
  Forall (fun c => isspace c = true) ws -> blank (line ++ ws) = blank line.
Proof.
  intros H%blank_Forall. unfold blank in *.
  by rewrite forallb_app, H, andb_true_r.
Qed.

Lemma isspace_NEWLINE : isspace NEWLINE = true.
Proof. reflexivity. Qed.

(** The lines of white space are blank. *)
Lemma lines_of_space ws :
  Forall (fun c => isspace c = true) ws ->
  Forall (fun line => blank line = true) (split_on NEWLINE ws).
Proof.
  induction 1 as [|c ws Hc _ IH]; [by repeat constructor |]. simpl.
  destruct (c =? NEWLINE)%N; [by constructor |].
  destruct (split_on NEWLINE ws) as [|w lines].
  - repeat constructor. unfold blank. simpl. by rewrite Hc.
  - apply Forall_cons in IH as [Hw Hlines]. constructor; [| done].
    unfold blank in *. simpl. by rewrite Hc.
Qed.

(** White space behind a text lengthens its last line by white space and
    adds blank lines. *)
Lemma lines_trailing s ws :
  Forall (fun c => isspace c = true) ws ->
  exists lines last extra blanks,
    split_on NEWLINE s = lines ++ [last] /\
    split_on NEWLINE (s ++ ws) = lines ++ [last ++ extra] ++ blanks /\
    Forall (fun c => isspace c = true) extra /\
    Forall (fun line => blank line = true) blanks.
Proof.
  intros Hws. induction s as [|c s (lines & last & extra & blanks & E1 & E2 & He & Hb)].
  - pose proof (lines_of_space ws Hws) as H. simpl.
    pose proof (split_on_not_nil NEWLINE ws) as Hne.
    destruct (split_on NEWLINE ws) as [|extra blanks]; [done |].
    apply Forall_cons in H as [He Hb].
    exists [], [], extra, blanks. by rewrite blank_Forall in He.
  - simpl. rewrite E1, E2.
    destruct (c =? NEWLINE)%N.
    + by exists ([] :: lines), last, extra, blanks.
    + destruct lines as [|w lines]; simpl.
      * by exists [], (c :: last), extra, blanks.
      * by exists ((c :: w) :: lines), last, extra, blanks.
Qed.

Lemma records_after_header_leading ws s :
  Forall (fun c => isspace c = true) ws ->
  records_after_header (ws ++ s) = records_after_header s.
Proof.
  induction 1 as [|c ws Hc _ IH]; [done |].
  rewrite <- IH. unfold records_after_header. simpl.
  destruct (c =? NEWLINE)%N; [done |].
  pose proof (split_on_not_nil NEWLINE (ws ++ s)) as Hne.
  destruct (split_on NEWLINE (ws ++ s)) as [|w lines]; [done |].
  simpl. rewrite Hc. by destruct (blank w).
Qed.

Lemma records_after_header_trailing s ws :
  Forall (fun c => isspace c = true) ws ->
  records_after_header (s ++ ws) = records_after_header s.
Proof.
  intros Hws.
  destruct (lines_trailing s ws Hws) as (lines & last & extra & blanks & E1 & E2 & He & Hb).
  unfold records_after_header. rewrite E1, E2. clear E1 E2.
  induction lines as [|line lines IH]; simpl.
  - rewrite blank_app by done. destruct (blank last).
    + by rewrite skip_blank_all.
    + simpl. by rewrite records_blank.
  - destruct (blank line); [done |]. simpl.
    rewrite !drop_0, !flat_map_app. simpl.
    by rewrite record_of_line_trailing, (records_blank blanks).
Qed.

Lemma lstrip_head s c r : lstrip s = c :: r -> isspace c = false.
Proof.
  induction s as [|d s IH]; [done |]. simpl.
  destruct (isspace d) eqn:Hd; [done |]. by intros [= <- _].
Qed.

Lemma strip_head s c r : strip s = c :: r -> isspace c = false.
Proof.
  unfold strip. destruct (rstrip_spec (lstrip s)) as (ws & E & _).
  intros H. rewrite H in E. by apply lstrip_head in E.
Qed.

(** The text that [strip] leaves is empty or starts with its header. *)
Lemma skip_blank_strip s :
  drop 1 (skip_blank (split_on NEWLINE (strip s)))
  = drop 1 (split_on NEWLINE (strip s)).
Proof.
  destruct (strip s) as [|c r] eqn:E; [done |].
  apply strip_head in E. simpl.
  destruct (N.eqb_spec c NEWLINE) as [->|_]; [done |].
  destruct (split_on NEWLINE r); simpl; unfold blank; simpl; by rewrite E.
Qed.

Lemma parse_devices_records (output : str) :
  parse_devices output = records_after_header output.
Proof.
  unfold parse_devices. rewrite parse_loop. simpl.
  destruct (strip_spec output) as (before & after & E & Hb & Ha).
  rewrite E at 2.
  rewrite records_after_header_leading, records_after_header_trailing by done.
  unfold records_after_header. by rewrite skip_blank_strip.
Qed.

End Parsing.

Section Lister.

Variable env : Env.

Lemma get_adb_devices_with_status_ok (t : trace) (result : CompletedProcess) :
  run_outcome env t adb_devices 10 = Ret result ->
  returncode result = 0%Z ->
  get_adb_devices_with_status env t
  = (Ret (parse_devices (stdout result)), t ++ [EvRun adb_devices 10]).
Proof.
  intros Hrun Hcode.
  unfold get_adb_devices_with_status, try_except, bind, subprocess_run.
  fold adb_devices. rewrite Hrun.
  rewrite bool_decide_eq_false_2 by (intros H; by apply H).
  done.
Qed.

(** The runs of [get_adb_devices_with_status], by the outcome of the
    listing command. *)
Lemma get_adb_devices_with_status_run (t : trace) :
  get_adb_devices_with_status env t =
    match run_outcome env t adb_devices 10 with
    | Ret result =>
        if bool_decide (returncode result <> 0%Z)
        then (Ret [], t ++ [EvRun adb_devices 10;
                            EvPrint (str_lit "ADB命令执行失败: " ++ stderr result)])
        else (Ret (parse_devices (stdout result)), t ++ [EvRun adb_devices 10])
    | Raise e =>
        (Ret [], t ++ [EvRun adb_devices 10;
                       EvPrint (str_lit "获取设备列表失败: " ++ exc_str e)])
    end.
Proof.
  unfold get_adb_devices_with_status, try_except, bind, subprocess_run.
  fold adb_devices.
  destruct (run_outcome env t adb_devices 10) as [result|e].
  - case_bool_decide; [| reflexivity].
    unfold print, ret. by rewrite <- app_assoc.
  - unfold print, ret, any_Exception. by rewrite <- app_assoc.
Qed.

Lemma records_after_header_first_line (output : str) :
  blank (hd [] (split_on NEWLINE output)) = false ->
  records_after_header output = records_after_first_line output.
Proof.
  unfold records_after_header, records_after_first_line.
  destruct (split_on NEWLINE output) as [|line lines]; [done |]. simpl.
  by intros ->.
Qed.

End Lister.

(** C8.  When the listing exits with code 0, [get_adb_devices_with_status]
    returns the records of the lines that follow the header, the header
    being the first line of the captured output that is not blank (the
    script strips the output before it cuts it into lines): every such
    line with at least two white-space separated tokens gives the record
    of its first two tokens, a line with fewer tokens (a blank one
    included) gives none.  When the first line of the output is not blank,
    the header is that first line. *)
Theorem get_adb_devices_with_status_parse
    (env : Env) (t : trace) (result : CompletedProcess) :
  run_outcome env t adb_devices 10 = Ret result ->
  returncode result = 0%Z ->
  get_adb_devices_with_status env t
  = (Ret (records_after_header (stdout result)), t ++ [EvRun adb_devices 10]) /\
  (forall line device_id status rest,
     tokens_of line (device_id :: status :: rest) ->
     record_of_line line = [Device device_id status]) /\
  (forall line tokens,
     tokens_of line tokens -> length tokens < 2 -> record_of_line line = []) /\
  (forall line, blank line = true -> record_of_line line = []) /\
  (blank (hd [] (split_on NEWLINE (stdout result))) = false ->
   records_after_header (stdout result)
   = records_after_first_line (stdout result)).
Proof.
  intros Hrun Hcode.
  split; [| split; [| split; [| split]]].
  - rewrite <- parse_devices_records.
    by apply get_adb_devices_with_status_ok.
  - intros line device_id status rest E%split_tokens_of.
    unfold record_of_line. by rewrite E.
  - intros line tokens E%split_tokens_of Hlen. unfold record_of_line.
    rewrite E. destruct tokens as [|a [|b rest]]; simpl in *; [done | done | lia].
  - apply record_of_line_blank.
  - apply records_after_header_first_line.
Qed.

Lemma get_adb_devices_with_status_parse_witness :
  get_adb_devices_with_status
    (fixed_env (fun _ => Ret (Completed 0 example_listing [])) (Ret [])) []
  = (Ret [Device (str_lit "192.168.1.5:5555") (str_lit "device");
          Device (str_lit "adb-ABC123._adb-tls-connect._tcp.") (str_lit "offline")],
     [EvRun adb_devices 10]).
Proof.
  destruct (get_adb_devices_with_status_parse
              (fixed_env (fun _ => Ret (Completed 0 example_listing [])) (Ret []))
              [] (Completed 0 example_listing []))
    as (Hrun & _); [reflexivity | reflexivity |].
  rewrite Hrun. vm_compute. reflexivity.
Defined.

(** On a listing whose first line is empty, the script skips that line and
    the header after it, whereas dropping the first line only would read a
    record off the header. *)
Lemma listing_after_empty_line_differs :
  get_adb_devices_with_status
    (fixed_env (fun _ => Ret (Completed 0 listing_after_empty_line [])) (Ret [])) []
  = (Ret [Device (str_lit "emulator-5554") (str_lit "device")],
     [EvRun adb_devices 10]) /\
  records_after_first_line listing_after_empty_line
  = [Device (str_lit "List") (str_lit "of");
     Device (str_lit "emulator-5554") (str_lit "device")].
Proof. split; vm_compute; reflexivity. Qed.

(** ** Device Lister: failures *)

(** C7.  [get_adb_devices_with_status] never raises: from every history
    and in every environment it returns a list.  When running the listing
    command fails with an exception (a timeout, a missing executable, an
    undecodable output), it prints the error and returns the empty list;
    when the command exits with a code other than 0, it prints the captured
    standard error and returns the empty list. *)
Theorem get_adb_devices_with_status_never_raises (env : Env) (t : trace) :
  (exists devices new,
     get_adb_devices_with_status env t = (Ret devices, t ++ new)) /\
  (forall e,
     run_outcome env t adb_devices 10 = Raise e ->
     get_adb_devices_with_status env t
     = (Ret [], t ++ [EvRun adb_devices 10;
                      EvPrint (str_lit "获取设备列表失败: " ++ exc_str e)])) /\
  (forall result,
     run_outcome env t adb_devices 10 = Ret result ->
     returncode result <> 0%Z ->
     get_adb_devices_with_status env t
     = (Ret [], t ++ [EvRun adb_devices 10;
                      EvPrint (str_lit "ADB命令执行失败: " ++ stderr result)])).
Proof.
  pose proof (get_adb_devices_with_status_run env t) as Hrun.
  split; [| split].
  - destruct (run_outcome env t adb_devices 10) as [result|e];
      [case_bool_decide |]; eexists _, _; exact Hrun.
  - intros e He. by rewrite He in Hrun.
  - intros result Hresult Hcode. rewrite Hresult in Hrun.
    by rewrite bool_decide_eq_true_2 in Hrun.
Qed.

Lemma get_adb_devices_with_status_never_raises_witness :
  get_adb_devices_with_status
    (fixed_env (fun _ => Raise (Exception TimeoutExpired (str_lit "timed out")))
               (Ret [])) []
  = (Ret [], [EvRun adb_devices 10;
              EvPrint (str_lit "获取设备列表失败: " ++ str_lit "timed out")]).
Proof.
  destruct (get_adb_devices_with_status_never_raises
              (fixed_env (fun _ => Raise (Exception TimeoutExpired (str_lit "timed out")))
                         (Ret [])) [])
    as (_ & Hraise & _).
  apply (Hraise (Exception TimeoutExpired (str_lit "timed out"))).
  reflexivity.
Defined.

(** ** Selector *)

Lemma int_one (decimal : char -> option N) (max_str_digits : nat) :
  Py.int decimal max_str_digits (str_lit "1") = Some 1%Z.
Proof. vm_compute. reflexivity. Qed.

Lemma int_three (decimal : char -> option N) (max_str_digits : nat) :
  Py.int decimal max_str_digits (str_lit "3") = Some 3%Z.
Proof. vm_compute. reflexivity. Qed.

Section Selector.

Variable env : Env.

Lemma select_online_device_empty (t : trace) :
  select_online_device env [] t
  = (Ret None, t ++ [EvPrint (str_lit "没有在线的设备可用")]).
Proof. reflexivity. Qed.

Lemma select_online_device_single (t : trace) (x : DeviceRecord) :
  select_online_device env [x] t
  = (Ret (Some x),
     t ++ [EvPrint (str_lit "自动选择唯一在线设备: " ++ device_id x)]).
Proof.
  unfold select_online_device.
  rewrite bool_decide_eq_false_2 by done.
  rewrite bool_decide_eq_true_2 by done.
  reflexivity.
Qed.

(** With two records or more, the line read decides the outcome. *)
Lemma select_online_device_long (t : trace)
    (online_devices : list DeviceRecord) (line : str) :
  2 <= length online_devices ->
  input_outcome env t select_prompt = Ret line ->
  select_online_device env online_devices t
  = match Py.int (unicode_decimal env) (int_max_str_digits env) line with
    | Some choice =>
        if bool_decide (1 <= choice <= Z.of_nat (length online_devices))%Z
        then (Ret (online_devices !! Z.to_nat (choice - 1)),
              t ++ [EvInput select_prompt])
        else (Ret None,
              t ++ [EvInput select_prompt; EvPrint (str_lit "无效的选择")])
    | None =>
        (Ret None, t ++ [EvInput select_prompt; EvPrint (str_lit "请输入数字")])
    end.
Proof.
  intros Hlen Hin.
  unfold select_online_device.
  rewrite bool_decide_eq_false_2 by (intros ->; simpl in Hlen; lia).
  rewrite bool_decide_eq_false_2 by lia.
  unfold try_except, bind, input, int_of. rewrite Hin.
  destruct (Py.int _ _ line) as [choice|].
  - unfold ret. case_bool_decide; [reflexivity |].
    unfold print. cbn [isinstance_ValueError]. by rewrite <- app_assoc.
  - unfold raise, print, ret.
    cbn [isinstance_ValueError exc_class]. by rewrite <- app_assoc.
Qed.

End Selector.

(** C4.  On the empty list [select_online_device] prints that no device
    is available and selects nothing; on a list of one record it selects
    that record; in both cases it does not prompt.  On a longer list it
    prompts exactly once, and the line read decides: a line that [int]
    reads as a number between 1 and the length of the list selects the
    record at that 1-based position and nothing more happens; a number
    outside that range, or a line [int] rejects, selects nothing after
    one message, and there is no second prompt.  With two records [x] and
    [y], the line ["1"] selects [x] and the line ["3"] selects nothing. *)
Theorem select_online_device_cases (env : Env) (t : trace) :
  select_online_device env [] t
  = (Ret None, t ++ [EvPrint (str_lit "没有在线的设备可用")]) /\
  (forall x,
     select_online_device env [x] t
     = (Ret (Some x),
        t ++ [EvPrint (str_lit "自动选择唯一在线设备: " ++ device_id x)])) /\
  (forall online_devices line choice,
     2 <= length online_devices ->
     input_outcome env t select_prompt = Ret line ->
     Py.int (unicode_decimal env) (int_max_str_digits env) line = Some choice ->
     (1 <= choice <= Z.of_nat (length online_devices))%Z ->
     exists device,
       online_devices !! Z.to_nat (choice - 1) = Some device /\
       select_online_device env online_devices t
       = (Ret (Some device), t ++ [EvInput select_prompt])) /\
  (forall online_devices line choice,
     2 <= length online_devices ->
     input_outcome env t select_prompt = Ret line ->
     Py.int (unicode_decimal env) (int_max_str_digits env) line = Some choice ->
     ~ (1 <= choice <= Z.of_nat (length online_devices))%Z ->
     select_online_device env online_devices t
     = (Ret None, t ++ [EvInput select_prompt; EvPrint (str_lit "无效的选择")])) /\
  (forall online_devices line,
     2 <= length online_devices ->
     input_outcome env t select_prompt = Ret line ->
     Py.int (unicode_decimal env) (int_max_str_digits env) line = None ->
     select_online_device env online_devices t
     = (Ret None, t ++ [EvInput select_prompt; EvPrint (str_lit "请输入数字")])) /\
  (forall x y,
     input_outcome env t select_prompt = Ret (str_lit "1") ->
     select_online_device env [x; y] t
     = (Ret (Some x), t ++ [EvInput select_prompt])) /\
  (forall x y,
     input_outcome env t select_prompt = Ret (str_lit "3") ->
     select_online_device env [x; y] t
     = (Ret None, t ++ [EvInput select_prompt; EvPrint (str_lit "无效的选择")])).
Proof.
  split; [apply select_online_device_empty |].
  split; [apply select_online_device_single |].
  split; [| split; [| split; [| split]]].
  - intros online_devices line choice Hlen Hin Hint Hrange.
    destruct (lookup_lt_is_Some_2 online_devices (Z.to_nat (choice - 1)))
      as [device Hdev]; [lia |].
    exists device. split; [done |].
    rewrite (select_online_device_long _ _ _ _ Hlen Hin), Hint.
    rewrite bool_decide_eq_true_2 by done.
    by rewrite Hdev.
  - intros online_devices line choice Hlen Hin Hint Hrange.
    rewrite (select_online_device_long _ _ _ _ Hlen Hin), Hint.
    by rewrite bool_decide_eq_false_2.
  - intros online_devices line Hlen Hin Hint.
    by rewrite (select_online_device_long _ _ _ _ Hlen Hin), Hint.
  - intros x y Hin.
    rewrite (select_online_device_long env t [x; y] _ ltac:(simpl; lia) Hin).
    by rewrite int_one.
  - intros x y Hin.
    rewrite (select_online_device_long env t [x; y] _ ltac:(simpl; lia) Hin).
    by rewrite int_three.
Qed.

Lemma select_online_device_cases_witness :
  select_online_device
    (fixed_env (fun _ => Raise (Exception OSError [])) (Ret (str_lit "2")))
    [Device (str_lit "a") (str_lit "device");
     Device (str_lit "b") (str_lit "device");
     Device (str_lit "c") (str_lit "device")] []
  = (Ret (Some (Device (str_lit "b") (str_lit "device"))),
     [EvInput select_prompt]).
Proof.
  destruct (select_online_device_cases
              (fixed_env (fun _ => Raise (Exception OSError [])) (Ret (str_lit "2")))
              []) as (_ & _ & Hpick & _).
  destruct (Hpick [Device (str_lit "a") (str_lit "device");
                   Device (str_lit "b") (str_lit "device");
                   Device (str_lit "c") (str_lit "device")]
                  (str_lit "2") 2%Z)
    as (device & Hdev & Hrun).
  - simpl. lia.
  - reflexivity.
  - vm_compute. reflexivity.
  - simpl. lia.
  - rewrite Hrun. vm_compute in Hdev. injection Hdev as <-.
    vm_compute. reflexivity.
Defined.

(** ** Reconnector *)

Section Reconnector.

Variable env : Env.

Lemma wireless_form_test (id : str) :
  contains_char COLON id || startswith id (str_lit "adb-") = true
  <-> wireless_form id.
Proof.
  unfold wireless_form.
  by rewrite orb_true_iff, contains_char_elem, startswith_prefix.
Qed.

(** The runs of [reconnect_offline_device], by the outcomes of the two
    commands. *)
Lemma reconnect_offline_device_run (device_info : DeviceRecord) (t : trace) :
  let id := device_id device_info in
  let t0 := t ++ [EvPrint (str_lit "尝试重新连接设备: " ++ id)] in
  let t1 := t0 ++ [EvRun (disconnect_cmd id) 5] in
  let t2 := t1 ++ [EvRun (connect_cmd id) 10] in
  reconnect_offline_device env device_info t =
    match run_outcome env t0 (disconnect_cmd id) 5 with
    | Raise e =>
        (Ret false, t1 ++ [EvPrint (str_lit "重新连接过程中出错: " ++ exc_str e)])
    | Ret _ =>
        if contains_char COLON id || startswith id (str_lit "adb-") then
          match run_outcome env t1 (connect_cmd id) 10 with
          | Raise e =>
              (Ret false, t2 ++ [EvPrint (str_lit "重新连接过程中出错: " ++ exc_str e)])
          | Ret result =>
              if contains (str_lit "connected") (stdout result)
              then (Ret true, t2 ++ [EvPrint (str_lit "✅ 重新连接成功: " ++ id)])
              else (Ret false, t2 ++ [EvPrint (str_lit "❌ 重新连接失败: " ++ stderr result)])
          end
        else (Ret false, t1 ++ [usb_guidance])
    end.
Proof.
  intros id t0 t1 t2. subst t2 t1 t0.
  unfold reconnect_offline_device, try_except, bind, subprocess_run, print.
  fold id. fold (disconnect_cmd id). fold (connect_cmd id).
  destruct (run_outcome env _ (disconnect_cmd id) 5) as [done_|e]; [| reflexivity].
  destruct (contains_char COLON id || startswith id (str_lit "adb-")); [| reflexivity].
  destruct (run_outcome env _ (connect_cmd id) 10) as [result|e]; [| reflexivity].
  destruct (contains (str_lit "connected") (stdout result)); reflexivity.
Qed.

(** The result and the new events of a run, in the shape the theorems
    below use. *)
Lemma reconnect_offline_device_events (device_info : DeviceRecord) (t : trace) :
  let id := device_id device_info in
  let t0 := t ++ [attempt_message id] in
  let t1 := t0 ++ [EvRun (disconnect_cmd id) 5] in
  exists (reconnected : bool) (rest : list event),
    reconnect_offline_device env device_info t
    = (Ret reconnected,
       t ++ attempt_message id :: EvRun (disconnect_cmd id) 5 :: rest) /\
    match run_outcome env t0 (disconnect_cmd id) 5 with
    | Raise e => reconnected = false /\ rest = [error_message e]
    | Ret _ =>
        if contains_char COLON id || startswith id (str_lit "adb-") then
          exists message,
            rest = [EvRun (connect_cmd id) 10; EvPrint message] /\
            (reconnected = true <->
             exists result,
               run_outcome env t1 (connect_cmd id) 10 = Ret result /\
               contains (str_lit "connected") (stdout result) = true) /\
            (reconnected = true -> EvPrint message = success_message id)
        else reconnected = false /\ rest = [usb_guidance]
    end.
Proof.
  intros id t0 t1.
  pose proof (reconnect_offline_device_run device_info t) as Hrun.
  cbv zeta in Hrun. fold id in Hrun.
  unfold attempt_message, error_message, success_message in *. subst t1 t0.
  destruct (run_outcome env _ (disconnect_cmd id) 5) as [done_|e].
  - destruct (contains_char COLON id || startswith id (str_lit "adb-")).
    + destruct (run_outcome env _ (connect_cmd id) 10) as [result|e] eqn:Hconnect.
      * destruct (contains (str_lit "connected") (stdout result)) eqn:Hc;
          rewrite <- !app_assoc in Hrun; cbn [app] in Hrun;
          eexists _, _; (split; [exact Hrun |]); eexists; (split; [reflexivity |]).
        -- split; [| done]. split; [intros _; by exists result | done].
        -- split; [| done]. split; [done | intros (r & [= <-] & Hr); congruence].
      * rewrite <- !app_assoc in Hrun; cbn [app] in Hrun.
        eexists _, _; (split; [exact Hrun |]); eexists; (split; [reflexivity |]).
        split; [| done]. split; [done | intros (r & [=] & _)].
    + rewrite <- !app_assoc in Hrun; cbn [app] in Hrun. by eexists _, _.
  - rewrite <- !app_assoc in Hrun; cbn [app] in Hrun. by eexists _, _.
Qed.

Lemma connect_cmd_not_disconnect (id id' : str) :
  connect_cmd id <> disconnect_cmd id'.
Proof. intros H. injection H as H _. vm_compute in H. discriminate. Qed.

Lemma is_disconnect_disconnect_cmd (id : str) : is_disconnect (disconnect_cmd id).
Proof. reflexivity. Qed.

Lemma is_disconnect_connect_cmd (id : str) : ~ is_disconnect (connect_cmd id).
Proof. unfold is_disconnect. vm_compute. intros H. discriminate. Qed.

Lemma is_disconnect_adb_devices : ~ is_disconnect adb_devices.
Proof. unfold is_disconnect. vm_compute. intros H. discriminate. Qed.

Lemma connect_cmd_not_adb_devices (id : str) : connect_cmd id <> adb_devices.
Proof. intros [=]. Qed.

End Reconnector.

(** C5.  [reconnect_offline_device] never raises.  It returns true exactly
    when the id has the wireless form and a connect command was run whose
    captured standard output contains ['connected'].  For an id of the USB
    form it returns false and runs no connect command; it then prints the
    guidance as its last message whenever the disconnect command that
    precedes completes, and the error of that command when it raises. *)
Theorem reconnect_offline_device_result
    (env : Env) (device_info : DeviceRecord) (t : trace) :
  let id := device_id device_info in
  exists (reconnected : bool) (new : list event),
    reconnect_offline_device env device_info t = (Ret reconnected, t ++ new) /\
    (reconnected = true <->
       wireless_form id /\
       exists before after result,
         new = before ++ EvRun (connect_cmd id) 10 :: after /\
         run_outcome env (t ++ before) (connect_cmd id) 10 = Ret result /\
         occurs_in (str_lit "connected") (stdout result)) /\
    (~ wireless_form id ->
       reconnected = false /\
       (connect_cmd id ∉ commands new) /\
       (forall completed,
          run_outcome env (t ++ [attempt_message id]) (disconnect_cmd id) 5
          = Ret completed ->
          last new = Some usb_guidance) /\
       (forall e,
          run_outcome env (t ++ [attempt_message id]) (disconnect_cmd id) 5
          = Raise e ->
          last new = Some (error_message e))).
Proof.
  intros id.
  destruct (reconnect_offline_device_events env device_info t)
    as (reconnected & rest & Hrun & Hcases).
  fold id in Hrun, Hcases.
  exists reconnected, (attempt_message id :: EvRun (disconnect_cmd id) 5 :: rest).
  split; [exact Hrun |].
  destruct (run_outcome env (t ++ [attempt_message id]) (disconnect_cmd id) 5)
    as [completed|e] eqn:Hdisconnect.
  - destruct (contains_char COLON id || startswith id (str_lit "adb-")) eqn:Hform.
    + apply wireless_form_test in Hform.
      destruct Hcases as (message & -> & Hiff & _). split; [| tauto].
      rewrite Hiff. split.
      * intros (result & Hconnect & Hout). split; [done |].
        exists [attempt_message id; EvRun (disconnect_cmd id) 5],
          [EvPrint message], result.
        split; [done |]. rewrite <- app_assoc in Hconnect.
        split; [exact Hconnect | by apply contains_occurs].
      * intros (_ & before & after & result & Hsplit & Hconnect & Hout).
        exists result. split; [| by apply contains_occurs].
        destruct before as [|b1 [|b2 [|b3 [|b4 before]]]]; simplify_eq/=;
          [by rewrite <- app_assoc | by destruct before].
    + assert (~ wireless_form id) as Hnot.
      { rewrite <- wireless_form_test. by rewrite Hform. }
      destruct Hcases as [-> ->]. split.
      * split; [done | tauto].
      * intros _. split; [done |]. split; [| split; [done | done]].
        cbn. rewrite list_elem_of_singleton. apply connect_cmd_not_disconnect.
  - destruct Hcases as [-> ->]. split.
    + split; [done |].
      intros (_ & before & after & result & Hsplit & _).
      destruct before as [|b1 [|b2 [|b3 [|b4 before]]]]; simplify_eq/=;
        try by destruct before.
    + intros _. split; [done |]. split; [| split; [done | by intros e' [= <-]]].
      cbn. rewrite list_elem_of_singleton. apply connect_cmd_not_disconnect.
Qed.

Lemma reconnect_offline_device_result_witness :
  exists reconnected new,
    reconnect_offline_device
      (fixed_env (fun _ => Ret (Completed 0 (str_lit "connected to 10.0.0.2:5555") []))
                 (Ret []))
      (Device (str_lit "10.0.0.2:5555") (str_lit "offline")) []
    = (Ret reconnected, new) /\ reconnected = true.
Proof.
  destruct (reconnect_offline_device_result
              (fixed_env (fun _ => Ret (Completed 0 (str_lit "connected to 10.0.0.2:5555") []))
                         (Ret []))
              (Device (str_lit "10.0.0.2:5555") (str_lit "offline")) [])
    as (reconnected & new & Hrun & _ & _).
  exists reconnected, new. split; [exact Hrun |].
  vm_compute in Hrun. by injection Hrun as <- _.
Defined.

(** When the disconnect command times out on a USB device, the run ends
    with the error message: the guidance is not printed. *)
Lemma reconnect_usb_timeout_no_guidance :
  reconnect_offline_device timeout_env usb_device []
  = (Ret false,
     [attempt_message (device_id usb_device);
      EvRun (disconnect_cmd (device_id usb_device)) 5;
      error_message (Exception TimeoutExpired (str_lit "timed out after 5 seconds"))]) /\
  (usb_guidance ∉
     [attempt_message (device_id usb_device);
      EvRun (disconnect_cmd (device_id usb_device)) 5;
      error_message (Exception TimeoutExpired (str_lit "timed out after 5 seconds"))]) /\
  (~ wireless_form (device_id usb_device)).
Proof.
  split; [vm_compute; reflexivity |]. split.
  - repeat (apply not_elem_of_cons; split;
              [intros H; vm_compute in H; discriminate |]).
    apply not_elem_of_nil.
  - intros H%wireless_form_test. vm_compute in H. discriminate.
Qed.

(** C10.  Whatever the form of the id, the first thing
    [reconnect_offline_device] does after announcing the attempt is to run
    the disconnect command, and it runs no second disconnect command.  For
    an id of the USB form this is the only command of the run: no connect
    command follows, and the result is false. *)
Theorem reconnect_offline_device_disconnects_first
    (env : Env) (device_info : DeviceRecord) (t : trace) :
  let id := device_id device_info in
  exists (reconnected : bool) (rest : list event),
    reconnect_offline_device env device_info t
    = (Ret reconnected,
       t ++ attempt_message id :: EvRun (disconnect_cmd id) 5 :: rest) /\
    Forall (fun argv => ~ is_disconnect argv) (commands rest) /\
    (~ wireless_form id -> reconnected = false /\ commands rest = []).
Proof.
  intros id.
  destruct (reconnect_offline_device_events env device_info t)
    as (reconnected & rest & Hrun & Hcases).
  fold id in Hrun, Hcases.
  exists reconnected, rest. split; [exact Hrun |].
  destruct (run_outcome env (t ++ [attempt_message id]) (disconnect_cmd id) 5)
    as [completed|e].
  - destruct (contains_char COLON id || startswith id (str_lit "adb-")) eqn:Hform.
    + apply wireless_form_test in Hform.
      destruct Hcases as (message & -> & _ & _). split; [| tauto].
      cbn. repeat constructor. apply is_disconnect_connect_cmd.
    + destruct Hcases as [-> ->]. split; [| done].
      cbn. constructor.
  - destruct Hcases as [-> ->]. split; [| done].
    cbn. constructor.
Qed.

Lemma reconnect_offline_device_disconnects_first_witness :
  exists reconnected rest,
    reconnect_offline_device
      (fixed_env (fun _ => Ret (Completed 1 [] (str_lit "error: no such device")))
                 (Ret []))
      usb_device []
    = (Ret reconnected,
       attempt_message (device_id usb_device)
       :: EvRun (disconnect_cmd (device_id usb_device)) 5 :: rest) /\
    reconnected = false /\ commands rest = [].
Proof.
  destruct (reconnect_offline_device_disconnects_first
              (fixed_env (fun _ => Ret (Completed 1 [] (str_lit "error: no such device")))
                         (Ret []))
              usb_device [])
    as (reconnected & rest & Hrun & _ & Husb).
  exists reconnected, rest. split; [exact Hrun |].
  apply Husb. intros H%wireless_form_test. vm_compute in H. discriminate.
Defined.

(** ** Top-level orchestration: the reconnection loop *)

Section Orchestration.

Variable env : Env.

Lemma commands_prints (events : list event) :
  Forall is_print events -> commands events = [].
Proof.
  induction 1 as [|ev events Hev _ IH]; [done |].
  by destruct ev.
Qed.

Lemma commands_app (l1 l2 : list event) :
  commands (l1 ++ l2) = commands l1 ++ commands l2.
Proof. unfold commands. apply omap_app. Qed.

(** The listing, in the shape the loop needs it. *)
Lemma get_adb_devices_with_status_events (t : trace) :
  exists devices messages,
    get_adb_devices_with_status env t
    = (Ret devices, t ++ EvRun adb_devices 10 :: messages) /\
    Forall is_print messages /\
    (filter online devices <> [] -> messages = []).
Proof.
  rewrite get_adb_devices_with_status_run.
  destruct (run_outcome env t adb_devices 10) as [result|e];
    [case_bool_decide |]; eexists _, _;
    (split; [reflexivity |]); split; try done; by repeat constructor.
Qed.

(** One round of the loop: either the attempt fails and the loop goes on
    with the next device, or it succeeds and the devices are listed and
    displayed again. *)
Lemma reconnect_loop_step (device : DeviceRecord)
    (rest online_devices : list DeviceRecord) (t : trace) :
  let id := device_id device in
  let t1 := t ++ [attempt_message id; EvRun (disconnect_cmd id) 5] in
  (exists tail,
     reconnect_loop env (device :: rest) online_devices t
     = reconnect_loop env rest online_devices (t1 ++ tail) /\
     ((exists message, tail = [EvPrint message]) \/
      (exists message,
         tail = [EvRun (connect_cmd id) 10; EvPrint message] /\
         ~ connected env t1 id)))
  \/
  (exists devices messages,
     let t2 := t1 ++ [EvRun (connect_cmd id) 10; success_message id] in
     let t3 := t2 ++ EvRun adb_devices 10 :: messages ++ display_events devices in
     connected env t1 id /\
     get_adb_devices_with_status env t2
     = (Ret devices, t2 ++ EvRun adb_devices 10 :: messages) /\
     Forall is_print messages /\
     (filter online devices <> [] -> messages = []) /\
     reconnect_loop env (device :: rest) online_devices t
     = if bool_decide (filter online devices <> [])
       then (Ret (filter online devices), t3)
       else reconnect_loop env rest (filter online devices) t3).
Proof.
  intros id t1.
  destruct (reconnect_offline_device_events env device t)
    as (reconnected & tail & Hrun & Hcases).
  fold id in Hrun, Hcases.
  assert (t ++ attempt_message id :: EvRun (disconnect_cmd id) 5 :: tail
          = t1 ++ tail) as Ht1 by (subst t1; by rewrite <- app_assoc).
  assert ((t ++ [attempt_message id]) ++ [EvRun (disconnect_cmd id) 5] = t1)
    as Ht1' by (subst t1; by rewrite <- app_assoc).
  rewrite Ht1 in Hrun. rewrite Ht1' in Hcases.
  assert (forall reconnected' : bool,
            reconnected = reconnected' ->
            reconnect_loop env (device :: rest) online_devices t
            = if reconnected' then
                (devices <- get_adb_devices_with_status env ;;
                 partitions <- display_devices devices ;;
                 let '(online_devices', _) := partitions in
                 if bool_decide (online_devices' <> []) then ret online_devices'
                 else reconnect_loop env rest online_devices') (t1 ++ tail)
              else reconnect_loop env rest online_devices (t1 ++ tail)) as Hloop.
  { intros reconnected' <-. cbn [reconnect_loop]. unfold bind at 1.
    rewrite Hrun. by destruct reconnected. }
  destruct (run_outcome env (t ++ [attempt_message id]) (disconnect_cmd id) 5)
    as [completed|e].
  - destruct (contains_char COLON id || startswith id (str_lit "adb-")).
    + destruct Hcases as (message & -> & Hiff & Hmessage).
      destruct reconnected.
      * right. rewrite (Hmessage eq_refl) in *.
        destruct (proj1 Hiff eq_refl) as (result & Hconnect & Hout).
        apply contains_occurs in Hout.
        destruct (get_adb_devices_with_status_events
                    (t1 ++ [EvRun (connect_cmd id) 10; success_message id]))
          as (devices & messages & Hlist & Hmessages & Honline).
        exists devices, messages. cbv zeta.
        split; [by exists result |]. split; [exact Hlist |].
        split; [exact Hmessages |]. split; [exact Honline |].
        rewrite (Hloop true eq_refl). unfold bind.
        rewrite Hlist, display_devices_run, partition_devices_filter.
        rewrite <- !app_assoc. cbn [app].
        by case_bool_decide.
      * left. eexists. split; [exact (Hloop false eq_refl) |]. right.
        exists message. split; [done |].
        intros (result & Hconnect & Hout%contains_occurs).
        assert (false = true) by (apply Hiff; eauto). done.
    + destruct Hcases as [-> ->]. left. eexists.
      split; [exact (Hloop false eq_refl) |]. left. eauto.
  - destruct Hcases as [-> ->]. left. eexists.
    split; [exact (Hloop false eq_refl) |]. left. unfold error_message. eauto.
Qed.

(** *** Finding an event in a list of events *)

Lemma cons_eq_split {A} (e x : A) (l before after : list A) :
  e :: l = before ++ x :: after ->
  (before = [] /\ e = x /\ l = after) \/
  (exists before', before = e :: before' /\ l = before' ++ x :: after).
Proof.
  destruct before as [|b before]; intros [= -> ->]; [by left |].
  right. by exists before.
Qed.

Lemma prints_skip (prints l before after : list event) (x : event) :
  Forall is_print prints -> ~ is_print x ->
  prints ++ l = before ++ x :: after ->
  exists before', before = prints ++ before' /\ l = before' ++ x :: after.
Proof.
  intros Hprints Hx. revert before.
  induction Hprints as [|p prints Hp _ IH]; intros before E.
  - by exists before.
  - apply cons_eq_split in E as [(_ & -> & _) | (before' & -> & E)]; [done |].
    destruct (IH _ E) as (before'' & -> & El). by exists before''.
Qed.

Lemma commands_print (text : str) (events : list event) :
  commands (EvPrint text :: events) = commands events.
Proof. reflexivity. Qed.

Lemma commands_run (argv : list str) (timeout : nat) (events : list event) :
  commands (EvRun argv timeout :: events) = argv :: commands events.
Proof. reflexivity. Qed.

(** The events of the loop; by induction on the offline devices. *)
Lemma reconnect_loop_events (offline_devices online_devices : list DeviceRecord)
    (t : trace) :
  exists online_out events,
    reconnect_loop env offline_devices online_devices t
    = (Ret online_out, t ++ events) /\
    reconnection_events env t offline_devices online_out events.
Proof.
  revert online_devices t.
  induction offline_devices as [|device rest IH]; intros online_devices t.
  { exists online_devices, []. split; [cbn; unfold ret; by rewrite app_nil_r |].
    split; [| split].
    - by exists 0.
    - intros before after id E. by destruct before.
    - intros before after E. by destruct before. }
  destruct (reconnect_loop_step device rest online_devices t)
    as [(tail & Hloop & Htail) | (devices & messages & Hsuccess)].
  - (* the attempt fails *)
    set (id := device_id device) in *.
    destruct (IH online_devices
                ((t ++ [attempt_message id; EvRun (disconnect_cmd id) 5]) ++ tail))
      as (online_out & events & Hrest & (k & Hk & Hall) & Hconn & Hlist).
    exists online_out,
      (attempt_message id :: EvRun (disconnect_cmd id) 5 :: tail ++ events).
    split; [rewrite Hloop, Hrest; f_equal; same_history |].
    unfold attempt_message in *.
    destruct Htail as [(message & ->) | (message & -> & Hnot)]; cbn [app] in *.
    + split; [| split].
      * exists (S k). split; [| intros Hnil; cbn; f_equal; auto].
        rewrite commands_print, commands_run, commands_print.
        rewrite filter_cons_True by apply is_disconnect_disconnect_cmd.
        cbn [take fmap list_fmap]. by rewrite Hk.
      * intros before after id' E Hc.
        apply cons_eq_split in E as [(_ & [=] & _) | (b1 & -> & E)].
        apply cons_eq_split in E as [(_ & [=] & _) | (b2 & -> & E)].
        apply cons_eq_split in E as [(_ & [=] & _) | (b3 & -> & E)].
        apply (Hconn b3 after id' E).
        revert Hc. same_history.
      * intros before after E.
        apply cons_eq_split in E as [(_ & [=] & _) | (b1 & -> & E)].
        apply cons_eq_split in E as [(_ & [=] & _) | (b2 & -> & E)].
        apply cons_eq_split in E as [(_ & [=] & _) | (b3 & -> & E)].
        destruct (Hlist b3 after E)
          as (before' & id' & devices & messages & after' & -> & H0 & H1 & H2).
        eexists (_ :: _ :: _ :: before'), id', devices, messages, after'.
        split; [reflexivity |].
        split; [revert H0; same_history |].
        split; [revert H1; same_history | done].
    + split; [| split].
      * exists (S k). split; [| intros Hnil; cbn; f_equal; auto].
        rewrite commands_print, !commands_run, commands_print.
        rewrite filter_cons_True by apply is_disconnect_disconnect_cmd.
        rewrite filter_cons_False by apply is_disconnect_connect_cmd.
        cbn [take fmap list_fmap]. by rewrite Hk.
      * intros before after id' E Hc.
        apply cons_eq_split in E as [(_ & [=] & _) | (b1 & -> & E)].
        apply cons_eq_split in E as [(_ & [=] & _) | (b2 & -> & E)].
        apply cons_eq_split in E as [(-> & [= <-] & _) | (b3 & -> & E)].
        { exfalso. apply Hnot. revert Hc. same_history. }
        apply cons_eq_split in E as [(_ & [=] & _) | (b4 & -> & E)].
        apply (Hconn b4 after id' E).
        revert Hc. same_history.
      * intros before after E.
        apply cons_eq_split in E as [(_ & [=] & _) | (b1 & -> & E)].
        apply cons_eq_split in E as [(_ & [=] & _) | (b2 & -> & E)].
        apply cons_eq_split in E as [(_ & [=] & _) | (b3 & -> & E)].
        apply cons_eq_split in E as [(_ & [=] & _) | (b4 & -> & E)].
        destruct (Hlist b4 after E)
          as (before' & id' & devices & messages & after' & -> & H0 & H1 & H2).
        eexists (_ :: _ :: _ :: _ :: before'), id', devices, messages, after'.
        split; [reflexivity |].
        split; [revert H0; same_history |].
        split; [revert H1; same_history | done].
  - (* the attempt succeeds: the devices are listed and displayed again *)
    cbv zeta in Hsuccess.
    destruct Hsuccess as (Hc & Hrun & Hmessages & Honline & Hloop).
    set (id := device_id device) in *.
    assert (Forall is_print (messages ++ display_events devices)) as Hprints
      by (apply Forall_app; split; [done | apply display_events_print]).
    unfold attempt_message, success_message in *.
    case_bool_decide as Hon.
    + (* an online device came up: the loop ends *)
      exists (filter online devices),
        (EvPrint (str_lit "尝试重新连接设备: " ++ id)
         :: EvRun (disconnect_cmd id) 5
         :: EvRun (connect_cmd id) 10
         :: EvPrint (str_lit "✅ 重新连接成功: " ++ id)
         :: EvRun adb_devices 10 :: messages ++ display_events devices).
      split; [rewrite Hloop; f_equal; same_history |].
      split; [| split].
      * exists 1. split; [| done].
        rewrite commands_print, !commands_run, commands_print, commands_run.
        rewrite (commands_prints _ Hprints).
        rewrite filter_cons_True by apply is_disconnect_disconnect_cmd.
        rewrite filter_cons_False by apply is_disconnect_connect_cmd.
        rewrite filter_cons_False by apply is_disconnect_adb_devices.
        cbn [take fmap list_fmap]. by rewrite take_0.
      * intros before after id' E Hc'.
        apply cons_eq_split in E as [(_ & [=] & _) | (b1 & -> & E)].
        apply cons_eq_split in E as [(_ & [=] & _) | (b2 & -> & E)].
        apply cons_eq_split in E as [(-> & [= <-] & <-) | (b3 & -> & E)]; [eauto |].
        apply cons_eq_split in E as [(_ & [=] & _) | (b4 & -> & E)].
        apply cons_eq_split in E as [(_ & [=] & _) | (b5 & -> & E)].
        rewrite <- (app_nil_r (messages ++ _)) in E.
        apply prints_skip in E as (b6 & -> & E); [| done | by intros []].
        by destruct b6.
      * intros before after E.
        apply cons_eq_split in E as [(_ & [=] & _) | (b1 & -> & E)].
        apply cons_eq_split in E as [(_ & [=] & _) | (b2 & -> & E)].
        apply cons_eq_split in E as [(_ & [=] & _) | (b3 & -> & E)].
        apply cons_eq_split in E as [(_ & [=] & _) | (b4 & -> & E)].
        apply cons_eq_split in E as [(-> & _ & <-) | (b5 & -> & E)].
        { eexists [_; _], id, devices, messages, []. rewrite app_nil_r.
          split; [reflexivity |]. split; [exact Hc |].
          split; [revert Hrun; same_history | done]. }
        rewrite <- (app_nil_r (messages ++ _)) in E.
        apply prints_skip in E as (b6 & -> & E); [| done | by intros []].
        by destruct b6.
    + (* no online device yet: the loop goes on *)
      destruct (IH (filter online devices)
                  (((t ++ [EvPrint (str_lit "尝试重新连接设备: " ++ id);
                           EvRun (disconnect_cmd id) 5])
                    ++ [EvRun (connect_cmd id) 10;
                        EvPrint (str_lit "✅ 重新连接成功: " ++ id)])
                   ++ EvRun adb_devices 10 :: messages ++ display_events devices))
        as (online_out & events & Hrest & (k & Hk & Hall) & Hconn & Hlist).
      exists online_out,
        (EvPrint (str_lit "尝试重新连接设备: " ++ id)
         :: EvRun (disconnect_cmd id) 5
         :: EvRun (connect_cmd id) 10
         :: EvPrint (str_lit "✅ 重新连接成功: " ++ id)
         :: EvRun adb_devices 10
         :: (messages ++ display_events devices) ++ events).
      split; [rewrite Hloop, Hrest; f_equal; same_history |].
      split; [| split].
      * exists (S k). split; [| intros Hnil; cbn; f_equal; auto].
        rewrite commands_print, !commands_run, commands_print, commands_run.
        rewrite commands_app, (commands_prints _ Hprints). cbn [app].
        rewrite filter_cons_True by apply is_disconnect_disconnect_cmd.
        rewrite filter_cons_False by apply is_disconnect_connect_cmd.
        rewrite filter_cons_False by apply is_disconnect_adb_devices.
        cbn [take fmap list_fmap]. by rewrite Hk.
      * intros before after id' E Hc'.
        apply cons_eq_split in E as [(_ & [=] & _) | (b1 & -> & E)].
        apply cons_eq_split in E as [(_ & [=] & _) | (b2 & -> & E)].
        apply cons_eq_split in E as [(-> & [= <-] & <-) | (b3 & -> & E)]; [eauto |].
        apply cons_eq_split in E as [(_ & [=] & _) | (b4 & -> & E)].
        apply cons_eq_split in E as [(_ & [=] & _) | (b5 & -> & E)].
        apply prints_skip in E as (b6 & -> & E); [| done | by intros []].
        apply (Hconn b6 after id' E).
        revert Hc'. same_history.
      * intros before after E.
        apply cons_eq_split in E as [(_ & [=] & _) | (b1 & -> & E)].
        apply cons_eq_split in E as [(_ & [=] & _) | (b2 & -> & E)].
        apply cons_eq_split in E as [(_ & [=] & _) | (b3 & -> & E)].
        apply cons_eq_split in E as [(_ & [=] & _) | (b4 & -> & E)].
        apply cons_eq_split in E as [(-> & _ & <-) | (b5 & -> & E)].
        { eexists [_; _], id, devices, messages, events.
          split; [reflexivity |]. split; [exact Hc |].
          split; [revert Hrun; same_history |].
          split; [same_history | by intros ?]. }
        apply prints_skip in E as (b6 & -> & E); [| done | by intros []].
        destruct (Hlist b6 after E)
          as (before' & id' & devices' & messages' & after' & -> & H0 & H1 & H2).
        eexists (_ :: _ :: _ :: _ :: _ :: (messages ++ display_events devices) ++ before'),
          id', devices', messages', after'.
        split; [same_history |].
        split; [revert H0; same_history |].
        split; [revert H1; same_history | done].
Qed.

Lemma filter_online_none (devices : list DeviceRecord) :
  filter online devices = [] -> filter (fun d => ~ online d) devices = devices.
Proof.
  induction devices as [|d devices IH]; [done |].
  rewrite filter_cons, (filter_cons (fun d => ~ online d)).
  destruct (decide (online d)) as [Hd|Hd]; [done |].
  intros H. rewrite decide_True by done. by rewrite IH.
Qed.

(** Selecting runs no external command. *)
Lemma select_online_device_no_commands (online_devices : list DeviceRecord)
    (t : trace) :
  exists outcome new,
    select_online_device env online_devices t = (outcome, t ++ new) /\
    commands new = [].
Proof.
  unfold select_online_device.
  case_bool_decide; [by eexists _, _ |].
  case_bool_decide; [by eexists _, _ |].
  unfold try_except, bind, input, int_of.
  destruct (input_outcome env t _) as [line|e].
  - destruct (Py.int _ _ line) as [choice|].
    + unfold ret. case_bool_decide.
      * by eexists _, _.
      * unfold print. rewrite <- app_assoc. by eexists _, _.
    + unfold raise, print, ret. cbn [isinstance_ValueError exc_class].
      rewrite <- app_assoc. by eexists _, _.
  - destruct (isinstance_ValueError e).
    + unfold print, ret. rewrite <- app_assoc. by eexists _, _.
    + by eexists _, _.
Qed.

Lemma report_selected_prints (selected_device : DeviceRecord) :
  prints_and_returns (report_selected selected_device) tt.
Proof.
  unfold report_selected.
  repeat (eapply prints_and_returns_bind; [apply prints_and_returns_print |]).
  destruct (truthy _);
    [apply prints_and_returns_print | apply prints_and_returns_ret].
Qed.

(** What [main] does after the loop: it selects and reports, and runs no
    external command. *)
Lemma main_selection (online_devices : list DeviceRecord) (t : trace) :
  exists outcome final,
    (selected_device <- select_online_device env online_devices ;;
     match selected_device with
     | Some selected_device =>
         report_selected selected_device ;;
         ret (Some (device_id selected_device))
     | None => ret None
     end) t = (outcome, t ++ final) /\
    commands final = [].
Proof.
  destruct (select_online_device_no_commands online_devices t)
    as (outcome & new & Hselect & Hnew).
  unfold bind at 1. rewrite Hselect.
  destruct outcome as [[selected_device|]|e].
  - destruct (report_selected_prints selected_device) as (prints & Hprints & Hrun).
    unfold bind, ret. rewrite Hrun, <- app_assoc.
    eexists _, _. split; [done |].
    by rewrite commands_app, Hnew, (commands_prints _ Hprints).
  - unfold ret. by eexists _, _.
  - by eexists _, _.
Qed.

End Orchestration.

(** C6.  Suppose the first listing returns devices none of which is online
    (so that all of them, and at least one, are offline) and the user
    answers the question with [y] or [Y].  Then [main] runs the
    reconnection loop over these devices, starting without online device,
    and the events the loop adds obey [reconnection_events]: the attempts
    are made in the order of the list; each attempt whose connect command
    reports a connection is followed at once by a new listing; the loop
    lists the devices only then, and every listing is followed by the
    display of its devices; as soon as a listing shows an online device the
    loop ends.  What [main] does after the loop runs no external command,
    so no reconnection is attempted once an online device has come up. *)
Theorem main_reconnection
    (env : Env) (t : trace) (result : CompletedProcess) (choice : str) :
  run_outcome env t adb_devices 10 = Ret result ->
  returncode result = 0%Z ->
  let devices := parse_devices (stdout result) in
  devices <> [] ->
  filter online devices = [] ->
  let t0 := t ++ EvRun adb_devices 10 :: display_events devices ++ [all_offline] in
  input_outcome env t0 confirm_prompt = Ret choice ->
  lower_eq_y choice = true ->
  let t1 := t0 ++ [EvInput confirm_prompt] in
  exists online_devices events outcome final,
    reconnect_loop env devices [] t1 = (Ret online_devices, t1 ++ events) /\
    reconnection_events env t1 devices online_devices events /\
    main env t = (outcome, (t1 ++ events) ++ final) /\
    commands final = [].
Proof.
  intros Hrun Hcode devices Hdevices Honline t0 Hinput Hyes t1.
  destruct (reconnect_loop_events env devices [] t1)
    as (online_devices & events & Hloop & Hevents).
  destruct (main_selection env online_devices (t1 ++ events))
    as (outcome & final & Hselect & Hfinal).
  exists online_devices, events, outcome, final.
  split; [exact Hloop |]. split; [exact Hevents |]. split; [| exact Hfinal].
  unfold main. unfold bind at 1.
  rewrite (get_adb_devices_with_status_ok env t result Hrun Hcode).
  fold devices. rewrite bool_decide_eq_false_2 by done.
  unfold bind at 1.
  rewrite display_devices_run, partition_devices_filter, Honline.
  rewrite (filter_online_none devices Honline).
  rewrite bool_decide_eq_true_2 by done.
  rewrite bool_decide_eq_true_2 by done.
  cbn [andb]. unfold bind at 1. unfold bind at 1. unfold print at 1.
  unfold bind at 1. unfold input at 1.
  assert (((t ++ [EvRun adb_devices 10]) ++ display_events devices) ++ [all_offline]
          = t0) as -> by (subst t0; same_history).
  rewrite Hinput, Hyes. fold t1. rewrite Hloop.
  exact Hselect.
Qed.

Lemma main_reconnection_witness :
  let devices := parse_devices listing_both_offline in
  let t1 := ([] ++ EvRun adb_devices 10 :: display_events devices ++ [all_offline])
            ++ [EvInput confirm_prompt] in
  exists online_devices events outcome final,
    reconnect_loop reachable_env devices [] t1 = (Ret online_devices, t1 ++ events) /\
    reconnection_events reachable_env t1 devices online_devices events /\
    main reachable_env [] = (outcome, (t1 ++ events) ++ final) /\
    commands final = [].
Proof.
  apply (main_reconnection reachable_env []
           (Completed 0 listing_both_offline []) (str_lit "y")).
  - reflexivity.
  - reflexivity.
  - vm_compute. discriminate.
  - vm_compute. reflexivity.
  - reflexivity.
  - vm_compute. reflexivity.
Defined.

(** In that run the first attempt succeeds, the devices are listed again,
    the first device is found online and selected; the second offline
    device is never tried. *)
Example main_reachable_run :
  fst (main reachable_env []) = Ret (Some wifi_a) /\
  commands (snd (main reachable_env []))
  = [adb_devices; disconnect_cmd wifi_a; connect_cmd wifi_a; adb_devices].
Proof. split; vm_compute; reflexivity. Qed.

(** When the attempts fail, the devices are not listed again: the only
    listing of the run is the first one, before any attempt. *)
Lemma main_failed_attempts_not_relisted :
  fst (main unreachable_env []) = Ret None /\
  commands (snd (main unreachable_env []))
  = [adb_devices;
     disconnect_cmd wifi_a; connect_cmd wifi_a;
     disconnect_cmd wifi_b; connect_cmd wifi_b].
Proof. split; vm_compute; reflexivity. Qed.

(** * Further properties of the script *)

(** ** What the listing returns *)

Section ListingRecords.

Implicit Types (s line : str) (devices : list DeviceRecord).

Lemma tokens_of_token_all s tokens : tokens_of s tokens -> Forall token tokens.
Proof.
  induction 1 as [ws Hws | ws tok s tokens Hws Htok Hns Hs _ IH]; constructor;
    [by split | done].
Qed.

Lemma split_token_all s : Forall token (split s).
Proof. apply (tokens_of_token_all s), tokens_of_split. Qed.

Lemma record_of_line_well_formed line :
  Forall well_formed (record_of_line line).
Proof.
  unfold record_of_line. pose proof (split_token_all line) as H.
  destruct (split line) as [|a [|b rest]]; [constructor | constructor |].
  apply Forall_cons in H as [Ha H]. apply Forall_cons in H as [Hb _].
  constructor; [by split | constructor].
Qed.

Lemma parse_devices_well_formed (output : str) :
  Forall well_formed (parse_devices output).
Proof.
  unfold parse_devices. rewrite parse_loop. simpl.
  induction (drop 1 (split_on NEWLINE (strip output))) as [|line lines IH];
    [constructor |].
  simpl. apply Forall_app. split; [apply record_of_line_well_formed | done].
Qed.

Lemma get_adb_devices_with_status_well_formed (env : Env) (t t' : trace) devices :
  get_adb_devices_with_status env t = (Ret devices, t') ->
  Forall well_formed devices.
Proof.
  rewrite get_adb_devices_with_status_run.
  destruct (run_outcome env t adb_devices 10) as [result|e];
    [case_bool_decide |]; intros [= <- _]; try constructor.
  apply parse_devices_well_formed.
Qed.

(** A test for tokens that computes. *)
Lemma token_check (w : str) :
  negb (bool_decide (w = [])) && forallb (fun c => negb (isspace c)) w = true ->
  token w.
Proof.
  rewrite andb_true_iff, negb_true_iff, bool_decide_eq_false.
  intros [Hne Hw]. split; [done |]. clear Hne.
  induction w as [|c w IH]; [constructor |].
  simpl in Hw. apply andb_true_iff in Hw as [Hc Hw].
  constructor; [by apply negb_true_iff | by apply IH].
Qed.

Lemma isspace_TAB : isspace TAB = true.
Proof. reflexivity. Qed.

Lemma token_no_newline w : token w -> NEWLINE ∉ w.
Proof.
  intros [_ Hw] Hin. rewrite Forall_forall in Hw.
  specialize (Hw _ Hin). by rewrite isspace_NEWLINE in Hw.
Qed.

Lemma token_no_tab w : token w -> TAB ∉ w.
Proof.
  intros [_ Hw] Hin. rewrite Forall_forall in Hw.
  specialize (Hw _ Hin). by rewrite isspace_TAB in Hw.
Qed.

(** The lines of a rendered listing. *)
Lemma split_on_render_listing (header : str) devices :
  NEWLINE ∉ header -> Forall well_formed devices ->
  split_on NEWLINE (render_listing header devices)
  = header :: map (fun d => device_id d ++ TAB :: status d) devices.
Proof.
  unfold render_listing. intros Hh Hd. revert header Hh.
  induction Hd as [|d devices [Hid Hst] _ IH]; intros header Hh.
  - simpl. rewrite app_nil_r. by apply split_on_segment.
  - cbn [flat_map map]. rewrite split_on_app by done.
    rewrite <- app_comm_cons, split_on_sep. cbn [hd tl].
    rewrite app_nil_r. f_equal.
    apply IH. rewrite elem_of_app, elem_of_cons.
    intros [H | [H | H]].
    + by apply (token_no_newline _ Hid).
    + done.
    + by apply (token_no_newline _ Hst).
Qed.

Lemma record_of_line_rendered (d : DeviceRecord) :
  well_formed d -> record_of_line (device_id d ++ TAB :: status d) = [d].
Proof.
  intros [[Hid Hidw] [Hst Hstw]]. unfold record_of_line.
  rewrite (split_tokens_of _ [device_id d; status d]); [by destruct d |].
  apply (tokens_of_token [] (device_id d) (TAB :: status d) [status d]);
    try done.
  - right. by exists TAB, (status d).
  - replace (TAB :: status d) with ([TAB] ++ status d ++ [])
      by (by rewrite app_nil_r).
    apply (tokens_of_token [TAB] (status d) [] []); try done.
    + by repeat constructor.
    + by left.
    + by apply tokens_of_space.
Qed.

Lemma records_of_rendered_lines devices :
  Forall well_formed devices ->
  flat_map record_of_line (map (fun d => device_id d ++ TAB :: status d) devices)
  = devices.
Proof.
  induction 1 as [|d devices Hwf _ IH]; [done |].
  cbn [map flat_map]. by rewrite record_of_line_rendered, IH.
Qed.

Lemma parse_devices_render_listing (header : str) devices :
  blank header = false -> NEWLINE ∉ header -> Forall well_formed devices ->
  parse_devices (render_listing header devices) = devices.
Proof.
  intros Hb Hh Hd. rewrite parse_devices_records. unfold records_after_header.
  rewrite split_on_render_listing by done.
  cbn [skip_blank]. rewrite Hb. cbn [drop].
  by apply records_of_rendered_lines.
Qed.

Lemma parse_devices_one_line (output : str) :
  NEWLINE ∉ strip output -> parse_devices output = [].
Proof.
  intros H. unfold parse_devices. by rewrite split_on_segment.
Qed.

End ListingRecords.

(** X1.  Whatever the listing command does, the records
    [get_adb_devices_with_status] returns are well formed: the id and the
    status of each are non-empty and hold no white space. *)
Theorem get_adb_devices_with_status_records (env : Env) (t : trace) :
  exists devices new,
    get_adb_devices_with_status env t = (Ret devices, t ++ new) /\
    Forall well_formed devices.
Proof.
  destruct (get_adb_devices_with_status env t) as [outcome t'] eqn:Hrun.
  pose proof Hrun as Hrun'.
  rewrite get_adb_devices_with_status_run in Hrun'.
  destruct (run_outcome env t adb_devices 10) as [result|e];
    [case_bool_decide |]; injection Hrun' as <- <-;
    eexists _, _; (split; [reflexivity |]);
    eauto using get_adb_devices_with_status_well_formed.
Qed.

(** X2.  A listing that exits with code 0 and whose output, once stripped,
    is a single line gives no record: that line is taken for the header,
    also when it describes a device. *)
Theorem get_adb_devices_with_status_one_line
    (env : Env) (t : trace) (result : CompletedProcess) :
  run_outcome env t adb_devices 10 = Ret result ->
  returncode result = 0%Z ->
  NEWLINE ∉ strip (stdout result) ->
  get_adb_devices_with_status env t = (Ret [], t ++ [EvRun adb_devices 10]).
Proof.
  intros Hrun Hcode Hline.
  rewrite (get_adb_devices_with_status_ok env t result Hrun Hcode).
  by rewrite parse_devices_one_line.
Qed.

Lemma get_adb_devices_with_status_one_line_witness :
  get_adb_devices_with_status
    (fixed_env (fun _ => Ret (Completed 0 (str_lit "emulator-5554   device") []))
               (Ret [])) []
  = (Ret [], [EvRun adb_devices 10]).
Proof.
  apply (get_adb_devices_with_status_one_line
           (fixed_env (fun _ => Ret (Completed 0 (str_lit "emulator-5554   device") []))
                      (Ret [])) []
           (Completed 0 (str_lit "emulator-5554   device") [])).
  - reflexivity.
  - reflexivity.
  - intros H%contains_char_elem. vm_compute in H. discriminate.
Defined.

(** X3.  Parsing inverts printing.  When the listing exits with code 0 and
    its output is a header line that is not blank followed by one line
    [id<TAB>status] for each record of a list of well-formed records,
    [get_adb_devices_with_status] returns exactly that list, in order. *)
Theorem get_adb_devices_with_status_render
    (env : Env) (t : trace) (result : CompletedProcess)
    (header : str) (devices : list DeviceRecord) :
  run_outcome env t adb_devices 10 = Ret result ->
  returncode result = 0%Z ->
  stdout result = render_listing header devices ->
  blank header = false -> NEWLINE ∉ header ->
  Forall well_formed devices ->
  get_adb_devices_with_status env t = (Ret devices, t ++ [EvRun adb_devices 10]).
Proof.
  intros Hrun Hcode Hout Hb Hh Hd.
  rewrite (get_adb_devices_with_status_ok env t result Hrun Hcode), Hout.
  by rewrite parse_devices_render_listing.
Qed.

Lemma get_adb_devices_with_status_render_witness :
  get_adb_devices_with_status
    (fixed_env
       (fun _ => Ret (Completed 0
                        (render_listing (str_lit "List of devices attached")
                           [Device wifi_a (str_lit "device"); usb_device]) []))
       (Ret [])) []
  = (Ret [Device wifi_a (str_lit "device"); usb_device], [EvRun adb_devices 10]).
Proof.
  apply (get_adb_devices_with_status_render
           (fixed_env
              (fun _ => Ret (Completed 0
                               (render_listing (str_lit "List of devices attached")
                                  [Device wifi_a (str_lit "device"); usb_device]) []))
              (Ret [])) []
           (Completed 0
              (render_listing (str_lit "List of devices attached")
                 [Device wifi_a (str_lit "device"); usb_device]) [])
           (str_lit "List of devices attached")).
  - reflexivity.
  - reflexivity.
  - reflexivity.
  - vm_compute. reflexivity.
  - intros H%contains_char_elem. vm_compute in H. discriminate.
  - apply Forall_cons. split; [| apply Forall_cons; split; [| constructor]];
      split; apply token_check; vm_compute; reflexivity.
Defined.

(** ** What the classification holds *)

Section ClassificationEntries.

Lemma list_to_map_is_Some (entries : list (string * value)) (k : string) :
  is_Some ((list_to_map entries : gmap string value) !! k) <-> k ∈ entries.*1.
Proof.
  rewrite <- not_eq_None_Some, <- not_elem_of_list_to_map.
  split; [apply dec_stable | tauto].
Qed.

End ClassificationEntries.

(** X4.  The entries of a classification depend on the variant.  That of
    an id starting with ['adb-'] has the eight entries of an mDNS device,
    among them ['full_id'] but no ['id']; that of any other id has the
    four entries ['type'], ['id'], ['is_wireless'] and ['status'], and in
    particular no ['is_encrypted'] entry. *)
Theorem analyze_device_entries (device_info : DeviceRecord) (k : string) :
  let id := device_id device_info in
  let info := analyze_device device_info in
  (str_lit "adb-" `prefix_of` id ->
     (is_Some (info !! k) <->
      k ∈ ["type"; "full_id"; "base_id"; "service_type"; "protocol";
           "is_encrypted"; "is_wireless"; "status"]) /\
     info !! "id" = None /\
     info !! "full_id" = Some (VStr id)) /\
  (~ str_lit "adb-" `prefix_of` id ->
     (is_Some (info !! k) <-> k ∈ ["type"; "id"; "is_wireless"; "status"]) /\
     info !! "is_encrypted" = None /\
     info !! "id" = Some (VStr id)).
Proof.
  intros id info. subst info. unfold analyze_device. fold id. split.
  - intros Hp%startswith_prefix. rewrite Hp.
    split; [apply list_to_map_is_Some | done].
  - intros Hp. destruct (startswith id _) eqn:E;
      [by apply startswith_prefix in E |].
    destruct (contains_char COLON id);
      (split; [apply list_to_map_is_Some | done]).
Qed.

Lemma analyze_device_entries_witness :
  analyze_device
    (Device (str_lit "adb-ABC123._adb-tls-connect._tcp.") (str_lit "offline"))
    !! "id" = None /\
  analyze_device usb_device !! "is_encrypted" = None.
Proof.
  split.
  - apply (analyze_device_entries
             (Device (str_lit "adb-ABC123._adb-tls-connect._tcp.") (str_lit "offline"))
             "id").
    apply startswith_prefix. vm_compute. reflexivity.
  - apply (analyze_device_entries usb_device "id").
    intros H%startswith_prefix. vm_compute in H. discriminate.
Defined.


(** ** What the selection returns *)

Section SelectionOutcomes.

Variable env : Env.

(** The runs of [select_online_device], by the length of the list and the
    outcome of the prompt. *)
Lemma select_online_device_run (online_devices : list DeviceRecord) (t : trace) :
  select_online_device env online_devices t =
    if bool_decide (online_devices = []) then
      (Ret None, t ++ [EvPrint (str_lit "没有在线的设备可用")])
    else if bool_decide (length online_devices = 1) then
      (Ret (online_devices !! 0),
       t ++ [EvPrint (str_lit "自动选择唯一在线设备: "
                      ++ from_option device_id [] (online_devices !! 0))])
    else
      match input_outcome env t select_prompt with
      | Ret line =>
          match Py.int (unicode_decimal env) (int_max_str_digits env) line with
          | Some choice =>
              if bool_decide (1 <= choice <= Z.of_nat (length online_devices))%Z
              then (Ret (online_devices !! Z.to_nat (choice - 1)),
                    t ++ [EvInput select_prompt])
              else (Ret None,
                    t ++ [EvInput select_prompt; EvPrint (str_lit "无效的选择")])
          | None =>
              (Ret None,
               t ++ [EvInput select_prompt; EvPrint (str_lit "请输入数字")])
          end
      | Raise e =>
          if isinstance_ValueError e
          then (Ret None,
                t ++ [EvInput select_prompt; EvPrint (str_lit "请输入数字")])
          else (Raise e, t ++ [EvInput select_prompt])
      end.
Proof.
  unfold select_online_device.
  case_bool_decide; [reflexivity |].
  case_bool_decide; [reflexivity |].
  unfold try_except, bind, input, int_of.
  destruct (input_outcome env t _) as [line|e].
  - destruct (Py.int _ _ line) as [choice|].
    + unfold ret. case_bool_decide; [reflexivity |].
      unfold print. by rewrite <- app_assoc.
    + unfold raise, print, ret. cbn [isinstance_ValueError exc_class].
      by rewrite <- app_assoc.
  - destruct (isinstance_ValueError e); [| reflexivity].
    unfold print, ret. by rewrite <- app_assoc.
Qed.

Lemma select_online_device_elem (online_devices : list DeviceRecord)
    (t t' : trace) (device : DeviceRecord) :
  select_online_device env online_devices t = (Ret (Some device), t') ->
  device ∈ online_devices.
Proof.
  rewrite select_online_device_run.
  repeat case_bool_decide;
    repeat (match goal with
            | |- context [match ?x with _ => _ end] => destruct x
            end);
    intros [= Hdev _]; try done; by apply list_elem_of_lookup_2 in Hdev.
Qed.

(** When the selection raises, the prompt raised, and not a [ValueError]. *)
Lemma select_online_device_raise (online_devices : list DeviceRecord)
    (t t' : trace) (e : exception) :
  select_online_device env online_devices t = (Raise e, t') ->
  t' = t ++ [EvInput select_prompt] /\
  input_outcome env t select_prompt = Raise e /\
  isinstance_ValueError e = false.
Proof.
  rewrite select_online_device_run.
  repeat case_bool_decide; try (by intros [=]).
  destruct (input_outcome env t _) as [line|e'] eqn:Hin.
  - destruct (Py.int _ _ line); [case_bool_decide |]; by intros [=].
  - destruct (isinstance_ValueError e') eqn:He; [by intros [=] |].
    by intros [= <- <-].
Qed.

End SelectionOutcomes.

(** X6.  [select_online_device] never invents a device: whatever the user
    types, a record it returns is one of the records of the list it was
    given. *)
Theorem select_online_device_member (env : Env)
    (online_devices : list DeviceRecord) (t t' : trace) (device : DeviceRecord) :
  select_online_device env online_devices t = (Ret (Some device), t') ->
  device ∈ online_devices.
Proof. apply select_online_device_elem. Qed.

Lemma select_online_device_member_witness :
  Device wifi_b (str_lit "device")
  ∈ [Device wifi_a (str_lit "device"); Device wifi_b (str_lit "device")].
Proof.
  apply (select_online_device_member
           (fixed_env (fun _ => Raise (Exception OSError [])) (Ret (str_lit " 2 ")))
           [Device wifi_a (str_lit "device"); Device wifi_b (str_lit "device")]
           [] [EvInput select_prompt]).
  vm_compute. reflexivity.
Defined.

(** X7.  What happens when reading the choice fails, on a list of two
    records or more.  An exception of the class [ValueError] (an
    undecodable line, for instance) is handled like a line that is not a
    number: one message, no selection.  Any other exception, such as the
    [EOFError] of a closed standard input, is not caught and leaves
    [select_online_device]. *)
Theorem select_online_device_input_fails (env : Env)
    (online_devices : list DeviceRecord) (t : trace) (e : exception) :
  2 <= length online_devices ->
  input_outcome env t select_prompt = Raise e ->
  (isinstance_ValueError e = true ->
   select_online_device env online_devices t
   = (Ret None, t ++ [EvInput select_prompt; EvPrint (str_lit "请输入数字")])) /\
  (isinstance_ValueError e = false ->
   select_online_device env online_devices t
   = (Raise e, t ++ [EvInput select_prompt])).
Proof.
  intros Hlen Hin. rewrite select_online_device_run, Hin.
  rewrite bool_decide_eq_false_2 by (intros ->; simpl in Hlen; lia).
  rewrite bool_decide_eq_false_2 by lia.
  split; by intros ->.
Qed.

Lemma select_online_device_input_fails_witness :
  select_online_device
    (fixed_env (fun _ => Raise (Exception OSError []))
               (Raise (Exception EOFError (str_lit "EOF when reading a line"))))
    [Device wifi_a (str_lit "device"); Device wifi_b (str_lit "device")] []
  = (Raise (Exception EOFError (str_lit "EOF when reading a line")),
     [EvInput select_prompt]).
Proof.
  apply (select_online_device_input_fails
           (fixed_env (fun _ => Raise (Exception OSError []))
                      (Raise (Exception EOFError (str_lit "EOF when reading a line"))))
           [Device wifi_a (str_lit "device"); Device wifi_b (str_lit "device")] []).
  - simpl. lia.
  - reflexivity.
  - reflexivity.
Defined.

(** ** The runs of [main] *)

Section MainRuns.

Variable env : Env.

Lemma prompts_app (l1 l2 : list event) :
  prompts (l1 ++ l2) = prompts l1 ++ prompts l2.
Proof. unfold prompts. apply omap_app. Qed.

Lemma prompts_prints (events : list event) :
  Forall is_print events -> prompts events = [].
Proof.
  induction 1 as [|ev events Hev _ IH]; [done |].
  by destruct ev.
Qed.

(** Selecting prompts at most once. *)
Lemma select_online_device_prompts (online_devices : list DeviceRecord)
    (t : trace) :
  exists outcome new,
    select_online_device env online_devices t = (outcome, t ++ new) /\
    commands new = [] /\
    prompts new `sublist_of` [select_prompt] /\
    (length online_devices <= 1 -> prompts new = []).
Proof.
  rewrite select_online_device_run.
  case_bool_decide as Hnil.
  { eexists _, _. split; [done |]. split; [done |]. split; [| done].
    by apply sublist_cons. }
  case_bool_decide as Hone.
  { eexists _, _. split; [done |]. split; [done |]. split; [| done].
    by apply sublist_cons. }
  assert (~ length online_devices <= 1) as Hlen.
  { destruct online_devices as [|x [|y l]]; simpl in *; [done | done | lia]. }
  destruct (input_outcome env t _) as [line|e].
  - destruct (Py.int _ _ line) as [choice|]; [case_bool_decide |];
      eexists _, _; (split; [done |]); (split; [done |]); split; done.
  - destruct (isinstance_ValueError e);
      eexists _, _; (split; [done |]); (split; [done |]); split; done.
Qed.

(** The last step of [main]. *)
Lemma select_and_report_run (online_devices : list DeviceRecord) (t : trace) :
  exists outcome final,
    select_and_report env online_devices t = (outcome, t ++ final) /\
    commands final = [] /\
    prompts final `sublist_of` [select_prompt] /\
    (length online_devices <= 1 -> prompts final = []) /\
    (forall id, outcome = Ret (Some id) ->
       exists d, d ∈ online_devices /\ device_id d = id) /\
    (forall e, outcome = Raise e ->
       final = [EvInput select_prompt] /\
       input_outcome env t select_prompt = Raise e /\
       isinstance_ValueError e = false).
Proof.
  destruct (select_online_device_prompts online_devices t)
    as (outcome & new & Hselect & Hcommands & Hprompts & Hfew).
  unfold select_and_report. unfold bind at 1. rewrite Hselect.
  destruct outcome as [[selected_device|]|e].
  - destruct (report_selected_prints selected_device) as (prints & Hprints & Hrun).
    unfold bind, ret. rewrite Hrun, <- app_assoc.
    eexists _, _. split; [done |].
    rewrite commands_app, prompts_app, Hcommands.
    rewrite (commands_prints _ Hprints), (prompts_prints _ Hprints), !app_nil_r.
    split; [done |]. split; [done |]. split; [done |]. split; [| done].
    intros id [= <-]. exists selected_device. split; [| done].
    by eapply select_online_device_elem.
  - unfold ret. eexists _, _. split; [done |].
    split; [done |]. split; [done |]. split; [done |]. split; done.
  - eexists _, _. split; [done |].
    split; [done |]. split; [done |]. split; [done |]. split; [done |].
    intros e' [= <-].
    apply select_online_device_raise in Hselect as (Ht & Hin & He).
    apply app_inv_head in Ht. done.
Qed.

Lemma select_and_report_none (t : trace) :
  select_and_report env [] t = (Ret None, t ++ [none_online]).
Proof. reflexivity. Qed.

(** The first listing of [main] either yields no device, or it is the parse
    of the output of a listing command that exited with code 0. *)
Lemma get_adb_devices_with_status_cases (t : trace) :
  (exists messages,
     get_adb_devices_with_status env t
     = (Ret [], t ++ EvRun adb_devices 10 :: messages) /\
     Forall is_print messages /\ length messages <= 1) \/
  (exists result,
     run_outcome env t adb_devices 10 = Ret result /\
     returncode result = 0%Z /\
     parse_devices (stdout result) <> [] /\
     get_adb_devices_with_status env t
     = (Ret (parse_devices (stdout result)), t ++ [EvRun adb_devices 10])).
Proof.
  rewrite get_adb_devices_with_status_run.
  destruct (run_outcome env t adb_devices 10) as [result|e].
  - case_bool_decide as Hcode.
    + left. eexists. split; [done |]. split; [by repeat constructor | simpl; lia].
    + destruct (decide (parse_devices (stdout result) = [])) as [Hnil|Hnil].
      * left. exists []. rewrite Hnil. split; [done |]. split; [constructor | simpl; lia].
      * right. exists result. split; [done |]. split; [| done].
        destruct (decide (returncode result = 0%Z)); [done | by destruct Hcode].
  - left. eexists. split; [done |]. split; [by repeat constructor | simpl; lia].
Qed.

Lemma main_not_found (t t' : trace) :
  get_adb_devices_with_status env t = (Ret [], t') ->
  main env t = (Ret None, t' ++ [none_found]).
Proof. intros H. unfold main. unfold bind at 1. by rewrite H. Qed.

(** The runs of [main] on a first listing with devices. *)
Lemma main_found (t : trace) (result : CompletedProcess) :
  run_outcome env t adb_devices 10 = Ret result ->
  returncode result = 0%Z ->
  parse_devices (stdout result) <> [] ->
  main env t =
    if bool_decide (filter online (parse_devices (stdout result)) = []) then
      match input_outcome env
              (t ++ EvRun adb_devices 10
                 :: display_events (parse_devices (stdout result)) ++ [all_offline])
              confirm_prompt with
      | Raise e =>
          (Raise e,
           t ++ EvRun adb_devices 10
             :: display_events (parse_devices (stdout result))
             ++ [all_offline; EvInput confirm_prompt])
      | Ret choice =>
          if lower_eq_y choice then
            (online_devices <- reconnect_loop env (parse_devices (stdout result)) [] ;;
             select_and_report env online_devices)
              (t ++ EvRun adb_devices 10
                 :: display_events (parse_devices (stdout result))
                 ++ [all_offline; EvInput confirm_prompt])
          else
            (Ret None,
             t ++ EvRun adb_devices 10
               :: display_events (parse_devices (stdout result))
               ++ [all_offline; EvInput confirm_prompt; none_online])
      end
    else
      select_and_report env (filter online (parse_devices (stdout result)))
        (t ++ EvRun adb_devices 10 :: display_events (parse_devices (stdout result))).
Proof.
  intros Hrun Hcode Hdevices.
  set (devices := parse_devices (stdout result)) in *.
  unfold main. unfold bind at 1.
  rewrite (get_adb_devices_with_status_ok env t result Hrun Hcode).
  fold devices. rewrite bool_decide_eq_false_2 by done.
  unfold bind at 1.
  rewrite display_devices_run, partition_devices_filter.
  fold (select_and_report env).
  assert ((t ++ [EvRun adb_devices 10]) ++ display_events devices
          = t ++ EvRun adb_devices 10 :: display_events devices) as ->
    by same_history.
  case_bool_decide as Honline.
  - rewrite Honline, (filter_online_none devices Honline).
    rewrite bool_decide_eq_true_2 by done.
    cbn [andb]. unfold bind at 1. unfold bind at 1. unfold print at 1.
    unfold bind at 1. unfold input at 1.
    assert ((t ++ EvRun adb_devices 10 :: display_events devices) ++ [all_offline]
            = t ++ EvRun adb_devices 10 :: display_events devices ++ [all_offline])
      as -> by same_history.
    assert ((t ++ EvRun adb_devices 10 :: display_events devices ++ [all_offline])
              ++ [EvInput confirm_prompt]
            = t ++ EvRun adb_devices 10 :: display_events devices
                ++ [all_offline; EvInput confirm_prompt])
      as -> by same_history.
    destruct (input_outcome env _ confirm_prompt) as [choice|e]; [| done].
    destruct (lower_eq_y choice); [done |].
    unfold ret at 1. rewrite select_and_report_none. f_equal. same_history.
  - cbn [andb]. unfold bind at 1. unfold ret at 1. done.
Qed.

End MainRuns.

Section ReconnectionLoop.

Variable env : Env.

Lemma attempt_event_print (devices : list DeviceRecord) (ev : event) :
  is_print ev -> attempt_event devices ev.
Proof. by destruct ev. Qed.

Lemma attempt_event_further (devices : list DeviceRecord) (d : DeviceRecord)
    (ev : event) :
  attempt_event devices ev -> attempt_event (d :: devices) ev.
Proof.
  destruct ev as [text|argv timeout|prompt]; simpl; [done | | done].
  intros [H | (d' & Hd & H)]; [by left | right].
  exists d'. split; [| done]. rewrite elem_of_cons. by right.
Qed.

Lemma attempt_event_disconnect (device : DeviceRecord) (rest : list DeviceRecord) :
  attempt_event (device :: rest) (EvRun (disconnect_cmd (device_id device)) 5).
Proof.
  right. exists device. split; [| by left]. rewrite elem_of_cons. by left.
Qed.

Lemma attempt_event_connect (device : DeviceRecord) (rest : list DeviceRecord) :
  attempt_event (device :: rest) (EvRun (connect_cmd (device_id device)) 10).
Proof.
  right. exists device. split; [| by right]. rewrite elem_of_cons. by left.
Qed.

(** The commands and the prompts of attempts. *)
Lemma attempt_events_commands (devices : list DeviceRecord) (events : list event) :
  Forall (attempt_event devices) events ->
  Forall (fun argv => argv = adb_devices \/ attempt_command devices argv)
         (commands events) /\
  prompts events = [].
Proof.
  induction 1 as [|ev events Hev _ [IHc IHp]]; [by split |].
  destruct ev as [text|argv timeout|prompt]; [done | | done].
  split; [| done]. rewrite commands_run. by constructor.
Qed.

(** Where the online devices the loop ends with come from: they are those
    the loop started with, or none, or the online devices of a listing the
    loop made, after which it only printed. *)
Lemma reconnect_loop_listing (offline_devices online_devices : list DeviceRecord)
    (t : trace) :
  exists online_out events,
    reconnect_loop env offline_devices online_devices t
    = (Ret online_out, t ++ events) /\
    Forall (attempt_event offline_devices) events /\
    (online_out = online_devices \/ online_out = [] \/
     exists before devices after,
       events = before ++ EvRun adb_devices 10 :: after /\
       get_adb_devices_with_status env (t ++ before)
       = (Ret devices, (t ++ before) ++ [EvRun adb_devices 10]) /\
       online_out = filter online devices /\
       online_out <> [] /\
       Forall is_print after).
Proof.
  revert online_devices t.
  induction offline_devices as [|device rest IH]; intros online_devices t.
  { exists online_devices, []. split; [cbn; unfold ret; by rewrite app_nil_r |].
    split; [constructor | by left]. }
  destruct (reconnect_loop_step env device rest online_devices t)
    as [(tail & Hloop & Htail) | (devices & messages & Hsuccess)].
  - (* the attempt fails *)
    destruct (IH online_devices
                ((t ++ [attempt_message (device_id device);
                        EvRun (disconnect_cmd (device_id device)) 5]) ++ tail))
      as (online_out & events & Hrest & Hevents & Hout).
    exists online_out,
      (attempt_message (device_id device)
       :: EvRun (disconnect_cmd (device_id device)) 5 :: tail ++ events).
    split; [rewrite Hloop, Hrest; f_equal; same_history |].
    split.
    + constructor; [exact I |].
      constructor; [apply attempt_event_disconnect |].
      apply Forall_app. split.
      * destruct Htail as [(message & ->) | (message & -> & _)].
        -- constructor; [exact I | constructor].
        -- constructor; [apply attempt_event_connect |].
           constructor; [exact I | constructor].
      * eapply Forall_impl; [exact Hevents |].
        intros ev. apply attempt_event_further.
    + destruct Hout
        as [-> | [-> | (before & devices & after & -> & Hget & -> & Hne & Hafter)]];
        [by left | by right; left |].
      right; right.
      exists (attempt_message (device_id device)
              :: EvRun (disconnect_cmd (device_id device)) 5 :: tail ++ before),
        devices, after.
      split; [same_history |].
      split; [| done].
      revert Hget. same_history.
  - (* the attempt succeeds, and the devices are listed again *)
    cbv zeta in Hsuccess.
    destruct Hsuccess as (_ & Hlist & Hmessages & Hempty & Hloop).
    assert (Forall (attempt_event (device :: rest))
              [attempt_message (device_id device);
               EvRun (disconnect_cmd (device_id device)) 5;
               EvRun (connect_cmd (device_id device)) 10;
               success_message (device_id device)]) as Hattempt.
    { constructor; [exact I |].
      constructor; [apply attempt_event_disconnect |].
      constructor; [apply attempt_event_connect |].
      constructor; [exact I | constructor]. }
    assert (Forall (attempt_event (device :: rest)) (display_events devices))
      as Hdisplay.
    { eapply Forall_impl; [apply display_events_print |].
      intros ev. apply attempt_event_print. }
    destruct (decide (filter online devices = [])) as [Hnone|Hsome].
    + rewrite bool_decide_eq_false_2 in Hloop by (intros H; by apply H).
      rewrite Hnone in Hloop.
      match type of Hloop with
      | _ = reconnect_loop _ _ _ ?t3 =>
          destruct (IH [] t3) as (online_out & events & Hrest & Hevents & Hout)
      end.
      exists online_out,
        ([attempt_message (device_id device);
          EvRun (disconnect_cmd (device_id device)) 5;
          EvRun (connect_cmd (device_id device)) 10;
          success_message (device_id device)]
         ++ EvRun adb_devices 10 :: messages ++ display_events devices ++ events).
      split; [rewrite Hloop, Hrest; f_equal; same_history |].
      split.
      * apply Forall_app. split; [exact Hattempt |].
        constructor; [by left |].
        apply Forall_app. split.
        { eapply Forall_impl; [exact Hmessages |].
          intros ev. apply attempt_event_print. }
        apply Forall_app. split; [exact Hdisplay |].
        eapply Forall_impl; [exact Hevents |].
        intros ev. apply attempt_event_further.
      * destruct Hout
          as [-> | [-> | (before & devices' & after & -> & Hget & -> & Hne & Hafter)]];
          [by right; left | by right; left |].
        right; right.
        exists ([attempt_message (device_id device);
                 EvRun (disconnect_cmd (device_id device)) 5;
                 EvRun (connect_cmd (device_id device)) 10;
                 success_message (device_id device)]
                ++ EvRun adb_devices 10 :: messages ++ display_events devices
                ++ before),
          devices', after.
        split; [same_history |].
        split; [| done].
        revert Hget. same_history.
    + rewrite bool_decide_eq_true_2 in Hloop by done.
      rewrite (Hempty Hsome) in *.
      exists (filter online devices),
        ([attempt_message (device_id device);
          EvRun (disconnect_cmd (device_id device)) 5;
          EvRun (connect_cmd (device_id device)) 10;
          success_message (device_id device)]
         ++ EvRun adb_devices 10 :: display_events devices).
      split; [rewrite Hloop; f_equal; same_history |].
      split.
      * apply Forall_app. split; [exact Hattempt |].
        constructor; [by left | exact Hdisplay].
      * right; right.
        exists [attempt_message (device_id device);
                EvRun (disconnect_cmd (device_id device)) 5;
                EvRun (connect_cmd (device_id device)) 10;
                success_message (device_id device)],
          devices, (display_events devices).
        split; [done |].
        split; [revert Hlist; same_history |].
        split; [done |]. split; [done |]. apply display_events_print.
Qed.

End ReconnectionLoop.

Section MainOutcomes.

Variable env : Env.

Lemma prompts_print (text : str) (events : list event) :
  prompts (EvPrint text :: events) = prompts events.
Proof. reflexivity. Qed.

Lemma prompts_run (argv : list str) (timeout : nat) (events : list event) :
  prompts (EvRun argv timeout :: events) = prompts events.
Proof. reflexivity. Qed.

Lemma prompts_input (prompt : str) (events : list event) :
  prompts (EvInput prompt :: events) = prompt :: prompts events.
Proof. reflexivity. Qed.

Lemma online_elem (devices : list DeviceRecord) (d : DeviceRecord) :
  d ∈ filter online devices ->
  Device (device_id d) (str_lit "device") ∈ devices.
Proof.
  intros [Hon Hin]%list_elem_of_filter. destruct d as [id st].
  unfold online in Hon. simpl in *. by subst.
Qed.

(** [main] with its result and its events, by the way it takes. *)
Lemma main_run (t : trace) :
  (exists messages,
     get_adb_devices_with_status env t
     = (Ret [], t ++ EvRun adb_devices 10 :: messages) /\
     Forall is_print messages /\ length messages <= 1 /\
     main env t = (Ret None, t ++ EvRun adb_devices 10 :: messages ++ [none_found]))
  \/
  (exists result,
     run_outcome env t adb_devices 10 = Ret result /\
     returncode result = 0%Z /\
     parse_devices (stdout result) <> [] /\
     get_adb_devices_with_status env t
     = (Ret (parse_devices (stdout result)), t ++ [EvRun adb_devices 10]) /\
     let devices := parse_devices (stdout result) in
     let t1 := t ++ EvRun adb_devices 10 :: display_events devices in
     (filter online devices <> [] /\
      main env t = select_and_report env (filter online devices) t1)
     \/
     (filter online devices = [] /\
      ((exists e,
          input_outcome env (t1 ++ [all_offline]) confirm_prompt = Raise e /\
          main env t = (Raise e, t1 ++ [all_offline; EvInput confirm_prompt]))
       \/
       (exists choice,
          input_outcome env (t1 ++ [all_offline]) confirm_prompt = Ret choice /\
          lower_eq_y choice = false /\
          main env t
          = (Ret None, t1 ++ [all_offline; EvInput confirm_prompt; none_online]))
       \/
       (exists choice online_devices events,
          input_outcome env (t1 ++ [all_offline]) confirm_prompt = Ret choice /\
          lower_eq_y choice = true /\
          reconnect_loop env devices [] (t1 ++ [all_offline; EvInput confirm_prompt])
          = (Ret online_devices,
             (t1 ++ [all_offline; EvInput confirm_prompt]) ++ events) /\
          Forall (attempt_event devices) events /\
          (online_devices = [] \/
           exists before devices' after,
             events = before ++ EvRun adb_devices 10 :: after /\
             get_adb_devices_with_status env
               ((t1 ++ [all_offline; EvInput confirm_prompt]) ++ before)
             = (Ret devices',
                ((t1 ++ [all_offline; EvInput confirm_prompt]) ++ before)
                ++ [EvRun adb_devices 10]) /\
             online_devices = filter online devices' /\
             Forall is_print after) /\
          main env t
          = select_and_report env online_devices
              ((t1 ++ [all_offline; EvInput confirm_prompt]) ++ events))))).
Proof.
  destruct (get_adb_devices_with_status_cases env t)
    as [(messages & Hget & Hm & Hlen) | (result & Hrun & Hcode & Hne & Hget)].
  { left. exists messages. split; [done |]. split; [done |]. split; [done |].
    rewrite (main_not_found env t _ Hget). f_equal. same_history. }
  right. exists result. split; [done |]. split; [done |]. split; [done |].
  split; [done |]. intros devices t1.
  rewrite (main_found env t result Hrun Hcode Hne). fold devices.
  case_bool_decide as Honline; [right | left; by split].
  split; [done |].
  assert (t ++ EvRun adb_devices 10 :: display_events devices ++ [all_offline]
          = t1 ++ [all_offline]) as -> by (subst t1; same_history).
  assert (t ++ EvRun adb_devices 10 :: display_events devices
            ++ [all_offline; EvInput confirm_prompt]
          = t1 ++ [all_offline; EvInput confirm_prompt]) as ->
    by (subst t1; same_history).
  destruct (input_outcome env _ confirm_prompt) as [choice|e];
    [| left; by exists e].
  right. destruct (lower_eq_y choice) eqn:Hyes.
  - right.
    destruct (reconnect_loop_listing env devices []
                (t1 ++ [all_offline; EvInput confirm_prompt]))
      as (online_devices & events & Hloop & Hevents & Hout).
    exists choice, online_devices, events.
    split; [done |]. split; [done |]. split; [done |]. split; [done |].
    split.
    + destruct Hout as [-> | [-> | (before & devices' & after & H)]];
        [by left | by left | right].
      exists before, devices', after. tauto.
    + unfold bind at 1. by rewrite Hloop.
  - left. exists choice. split; [done |]. split; [done |].
    f_equal. subst t1. same_history.
Qed.

End MainOutcomes.

(** X8.  When the listing yields no device, because the command cannot be
    run, times out, exits with a code other than 0 or prints no device line,
    [main] returns [None] without raising: it runs the listing command and
    nothing else, prints at most one diagnostic and then that no device was
    found, and asks nothing. *)
Theorem main_no_device (env : Env) (t : trace) :
  (forall result,
     run_outcome env t adb_devices 10 = Ret result ->
     returncode result = 0%Z ->
     parse_devices (stdout result) = []) ->
  exists messages,
    Forall is_print messages /\ length messages <= 1 /\
    main env t
    = (Ret None, t ++ EvRun adb_devices 10 :: messages ++ [none_found]).
Proof.
  intros Hnone.
  destruct (main_run env t)
    as [(messages & _ & Hm & Hlen & Hmain) | (result & Hrun & Hcode & Hne & _)].
  - by exists messages.
  - destruct Hne. by apply Hnone.
Qed.

Lemma main_no_device_witness :
  exists messages,
    Forall is_print messages /\ length messages <= 1 /\
    main no_adb_env []
    = (Ret None, [] ++ EvRun adb_devices 10 :: messages ++ [none_found]).
Proof.
  apply (main_no_device no_adb_env []).
  intros result H. vm_compute in H. discriminate.
Defined.

(** X9.  When the first listing shows a device online, [main] attempts no
    reconnection: after the listing and the display it only selects and
    reports, so it runs no further command and does not ask whether to
    reconnect; an id it returns is the id of a device that listing shows with
    the status ['device'].  When exactly one device is online, [main]
    returns its id without asking anything. *)
Theorem main_online_device (env : Env) (t : trace) (result : CompletedProcess) :
  run_outcome env t adb_devices 10 = Ret result ->
  returncode result = 0%Z ->
  filter online (parse_devices (stdout result)) <> [] ->
  exists outcome final,
    main env t
    = (outcome,
       t ++ EvRun adb_devices 10
         :: display_events (parse_devices (stdout result)) ++ final) /\
    commands final = [] /\
    prompts final `sublist_of` [select_prompt] /\
    (forall id,
       outcome = Ret (Some id) ->
       Device id (str_lit "device") ∈ parse_devices (stdout result)) /\
    (forall d,
       filter online (parse_devices (stdout result)) = [d] ->
       outcome = Ret (Some (device_id d)) /\ prompts final = []).
Proof.
  intros Hrun Hcode Honline.
  destruct (main_run env t)
    as [(messages & Hget & _) | (result' & Hrun' & _ & _ & _ & Hmain)].
  { rewrite get_adb_devices_with_status_run, Hrun in Hget.
    rewrite bool_decide_eq_false_2 in Hget by (intros H; by apply H).
    injection Hget as Hget _. by rewrite Hget in Honline. }
  assert (result' = result) as -> by congruence.
  cbv zeta in Hmain. destruct Hmain as [[_ Hmain] | [Hnone _]]; [| done].
  destruct (select_and_report_run env (filter online (parse_devices (stdout result)))
              (t ++ EvRun adb_devices 10
                 :: display_events (parse_devices (stdout result))))
    as (outcome & final & Hselect & Hcommands & Hprompts & Hfew & Hid & _).
  exists outcome, final.
  split; [rewrite Hmain, Hselect; f_equal; same_history |].
  split; [done |]. split; [done |]. split.
  - intros id Hout. destruct (Hid id Hout) as (d & Hd & <-).
    by apply online_elem.
  - intros d Hd. rewrite Hd in *. split; [| by apply Hfew].
    unfold select_and_report in Hselect. unfold bind at 1 in Hselect.
    rewrite select_online_device_single in Hselect.
    destruct (report_selected_prints d) as (prints & _ & Hreport).
    unfold bind, ret in Hselect. rewrite Hreport in Hselect.
    by injection Hselect as <- _.
Qed.

Lemma main_online_device_witness :
  exists outcome final,
    main (listing_env listing_first_online (Raise end_of_input)) []
    = (outcome,
       [] ++ EvRun adb_devices 10
          :: display_events (parse_devices listing_first_online) ++ final) /\
    outcome = Ret (Some wifi_a) /\ prompts final = [].
Proof.
  destruct (main_online_device
              (listing_env listing_first_online (Raise end_of_input)) []
              (Completed 0 listing_first_online []))
    as (outcome & final & Hmain & _ & _ & _ & Hone).
  - reflexivity.
  - reflexivity.
  - vm_compute. discriminate.
  - exists outcome, final. split; [exact Hmain |].
    apply (Hone (Device wifi_a (str_lit "device"))).
    vm_compute. reflexivity.
Defined.

(** X10.  When no device of the first listing is online and the user
    answers the question with anything but [y] or [Y] (so also with [yes],
    or with [y] after a blank), nothing is reconnected: [main] runs no
    further command, says that no online device is available and returns
    [None]. *)
Theorem main_declined
    (env : Env) (t : trace) (result : CompletedProcess) (choice : str) :
  run_outcome env t adb_devices 10 = Ret result ->
  returncode result = 0%Z ->
  parse_devices (stdout result) <> [] ->
  filter online (parse_devices (stdout result)) = [] ->
  input_outcome env
    (t ++ EvRun adb_devices 10
       :: display_events (parse_devices (stdout result)) ++ [all_offline])
    confirm_prompt = Ret choice ->
  choice <> str_lit "y" ->
  choice <> str_lit "Y" ->
  main env t
  = (Ret None,
     t ++ EvRun adb_devices 10
       :: display_events (parse_devices (stdout result))
       ++ [all_offline; EvInput confirm_prompt; none_online]).
Proof.
  intros Hrun Hcode Hne Honline Hinput Hy HY.
  rewrite (main_found env t result Hrun Hcode Hne).
  rewrite bool_decide_eq_true_2 by done. rewrite Hinput.
  unfold lower_eq_y.
  by rewrite !bool_decide_eq_false_2.
Qed.

Lemma main_declined_witness :
  main (listing_env listing_both_offline (Ret (str_lit "yes"))) []
  = (Ret None,
     [] ++ EvRun adb_devices 10
        :: display_events (parse_devices listing_both_offline)
        ++ [all_offline; EvInput confirm_prompt; none_online]).
Proof.
  apply (main_declined (listing_env listing_both_offline (Ret (str_lit "yes"))) []
           (Completed 0 listing_both_offline []) (str_lit "yes")).
  - reflexivity.
  - reflexivity.
  - vm_compute. discriminate.
  - vm_compute. reflexivity.
  - reflexivity.
  - intros H. vm_compute in H. discriminate.
  - intros H. vm_compute in H. discriminate.
Defined.

(** X11.  An exception leaves [main] only from one of its two prompts: the
    last event of the run is then that prompt, and the exception is the one
    reading the line raised; at the prompt of the selection it is not a
    [ValueError].  No failure of an external command makes [main] raise. *)
Theorem main_raises (env : Env) (t t' : trace) (e : exception) :
  main env t = (Raise e, t') ->
  exists before prompt,
    t' = t ++ before ++ [EvInput prompt] /\
    input_outcome env (t ++ before) prompt = Raise e /\
    (prompt = confirm_prompt \/
     prompt = select_prompt /\ isinstance_ValueError e = false).
Proof.
  destruct (main_run env t)
    as [(messages & _ & _ & _ & ->) | (result & _ & _ & _ & _ & Hmain)];
    [by intros [=] |].
  cbv zeta in Hmain.
  destruct Hmain
    as [[_ ->]
       | [_ [(e' & Hin & ->)
            | [(choice & _ & _ & ->)
              | (choice & online_devices & events & _ & _ & _ & _ & _ & ->)]]]].
  - match goal with
    | |- select_and_report _ ?l ?t1 = _ -> _ =>
        destruct (select_and_report_run env l t1)
          as (outcome & final & -> & _ & _ & _ & _ & Hraise)
    end.
    intros [= -> <-]. destruct (Hraise e eq_refl) as (-> & Hin & He).
    exists (EvRun adb_devices 10
              :: display_events (parse_devices (stdout result))),
      select_prompt.
    split; [same_history |]. split; [revert Hin; same_history | by right].
  - intros [= <- <-].
    exists (EvRun adb_devices 10
              :: display_events (parse_devices (stdout result)) ++ [all_offline]),
      confirm_prompt.
    split; [same_history |]. split; [revert Hin; same_history | by left].
  - by intros [=].
  - match goal with
    | |- select_and_report _ ?l ?t1 = _ -> _ =>
        destruct (select_and_report_run env l t1)
          as (outcome & final & -> & _ & _ & _ & _ & Hraise)
    end.
    intros [= -> <-]. destruct (Hraise e eq_refl) as (-> & Hin & He).
    exists (EvRun adb_devices 10
              :: display_events (parse_devices (stdout result))
              ++ [all_offline; EvInput confirm_prompt] ++ events),
      select_prompt.
    split; [same_history |]. split; [revert Hin; same_history | by right].
Qed.

Lemma main_raises_witness :
  exists before prompt,
    snd (main (listing_env listing_both_offline (Raise end_of_input)) [])
    = [] ++ before ++ [EvInput prompt] /\
    input_outcome (listing_env listing_both_offline (Raise end_of_input))
      ([] ++ before) prompt = Raise end_of_input /\
    (prompt = confirm_prompt \/
     prompt = select_prompt /\ isinstance_ValueError end_of_input = false).
Proof.
  apply (main_raises (listing_env listing_both_offline (Raise end_of_input)) []
           (snd (main (listing_env listing_both_offline (Raise end_of_input)) []))
           end_of_input).
  vm_compute. reflexivity.
Defined.

(** X12.  An id that [main] returns is the id of a device that was online
    in the last listing of the run: the run made a listing, no command was
    run after it, and that listing returned a record with this id and the
    status ['device'].  The id is a token: it is not empty and holds no
    white space. *)
Theorem main_selected (env : Env) (t t' : trace) (id : str) :
  main env t = (Ret (Some id), t') ->
  exists before devices after,
    t' = t ++ before ++ EvRun adb_devices 10 :: after /\
    get_adb_devices_with_status env (t ++ before)
    = (Ret devices, (t ++ before) ++ [EvRun adb_devices 10]) /\
    Device id (str_lit "device") ∈ devices /\
    commands after = [] /\
    token id.
Proof.
  assert (forall t0 t1 devices d,
            get_adb_devices_with_status env t0 = (Ret devices, t1) ->
            d ∈ filter online devices -> token (device_id d)) as Htoken.
  { intros t0 t1 devices d Hget [_ Hd]%list_elem_of_filter.
    apply get_adb_devices_with_status_well_formed in Hget.
    rewrite Forall_forall in Hget. by apply Hget. }
  destruct (main_run env t)
    as [(messages & _ & _ & _ & ->) | (result & _ & _ & _ & Hget & Hmain)];
    [by intros [=] |].
  cbv zeta in Hmain.
  destruct Hmain
    as [[_ ->]
       | [_ [(e' & _ & ->)
            | [(choice & _ & _ & ->)
              | (choice & online_devices & events & _ & _ & _ & _ & Hout & ->)]]]].
  - match goal with
    | |- select_and_report _ ?l ?t1 = _ -> _ =>
        destruct (select_and_report_run env l t1)
          as (outcome & final & -> & Hcommands & _ & _ & Hid & _)
    end.
    intros [= -> <-]. destruct (Hid id eq_refl) as (d & Hd & <-).
    exists [], (parse_devices (stdout result)),
      (display_events (parse_devices (stdout result)) ++ final).
    split; [same_history |]. rewrite app_nil_r.
    split; [done |]. split; [by apply online_elem |].
    split; [| by eapply Htoken].
    by rewrite commands_app, (commands_prints _ (display_events_print _)).
  - by intros [=].
  - by intros [=].
  - match goal with
    | |- select_and_report _ ?l ?t1 = _ -> _ =>
        destruct (select_and_report_run env l t1)
          as (outcome & final & -> & Hcommands & _ & _ & Hid & _)
    end.
    intros [= -> <-]. destruct (Hid id eq_refl) as (d & Hd & <-).
    destruct Hout as [-> | (before & devices' & after & -> & Hget' & -> & Hafter)];
      [by apply elem_of_nil in Hd |].
    exists (EvRun adb_devices 10
              :: display_events (parse_devices (stdout result))
              ++ [all_offline; EvInput confirm_prompt] ++ before),
      devices', (after ++ final).
    split; [same_history |].
    split; [revert Hget'; same_history |].
    split; [by apply online_elem |].
    split; [| by eapply Htoken].
    by rewrite commands_app, (commands_prints _ Hafter).
Qed.

Lemma main_selected_witness :
  exists before devices after,
    snd (main reachable_env [])
    = [] ++ before ++ EvRun adb_devices 10 :: after /\
    get_adb_devices_with_status reachable_env ([] ++ before)
    = (Ret devices, ([] ++ before) ++ [EvRun adb_devices 10]) /\
    Device wifi_a (str_lit "device") ∈ devices /\
    commands after = [] /\
    token wifi_a.
Proof.
  apply (main_selected reachable_env [] (snd (main reachable_env [])) wifi_a).
  vm_compute. reflexivity.
Defined.

(** X13.  What a run of [main] can do, whatever the environment answers.
    Its first command is the listing.  Every other command is a listing
    again, or the disconnect or the connect command of a device that the
    first listing returned with a status other than ['device']: [main]
    never disconnects a device it found online, and never touches a device
    the first listing did not show.  It asks at most two questions: whether
    to reconnect, then which device to select. *)
Theorem main_commands (env : Env) (t : trace) :
  exists devices outcome new rest,
    fst (get_adb_devices_with_status env t) = Ret devices /\
    main env t = (outcome, t ++ new) /\
    commands new = adb_devices :: rest /\
    Forall (fun argv =>
              argv = adb_devices \/
              attempt_command (filter (fun d => ~ online d) devices) argv) rest /\
    prompts new `sublist_of` [confirm_prompt; select_prompt].
Proof.
  destruct (main_run env t)
    as [(messages & Hget & Hm & _ & Hmain)
       | (result & _ & _ & _ & Hget & Hmain)].
  { exists [], (Ret None), (EvRun adb_devices 10 :: messages ++ [none_found]), [].
    split; [by rewrite Hget |]. split; [done |].
    assert (Forall is_print (messages ++ [none_found])) as Hprints
      by (apply Forall_app; split; [done | by repeat constructor]).
    split; [by rewrite commands_run, (commands_prints _ Hprints) |].
    split; [constructor |].
    rewrite prompts_run, (prompts_prints _ Hprints). apply sublist_nil_l. }
  cbv zeta in Hmain.
  set (devices := parse_devices (stdout result)) in *.
  pose proof (display_events_print devices) as Hdisplay.
  destruct Hmain
    as [[_ Hmain]
       | [Hnone [(e' & _ & Hmain)
            | [(choice & _ & _ & Hmain)
              | (choice & online_devices & events & _ & _ & _ & Hevents & _ & Hmain)]]]].
  - destruct (select_and_report_run env (filter online devices)
                (t ++ EvRun adb_devices 10 :: display_events devices))
      as (outcome & final & Hselect & Hcommands & Hprompts & _).
    exists devices, outcome,
      (EvRun adb_devices 10 :: display_events devices ++ final), [].
    split; [by rewrite Hget |].
    split; [rewrite Hmain, Hselect; f_equal; same_history |].
    split; [by rewrite commands_run, commands_app, (commands_prints _ Hdisplay),
               Hcommands |].
    split; [constructor |].
    rewrite prompts_run, prompts_app, (prompts_prints _ Hdisplay).
    by apply sublist_cons.
  - exists devices, (Raise e'),
      (EvRun adb_devices 10
         :: display_events devices ++ [all_offline; EvInput confirm_prompt]), [].
    split; [by rewrite Hget |].
    split; [rewrite Hmain; f_equal; same_history |].
    split; [by rewrite commands_run, commands_app, (commands_prints _ Hdisplay) |].
    split; [constructor |].
    rewrite prompts_run, prompts_app, (prompts_prints _ Hdisplay).
    apply sublist_skip, sublist_nil_l.
  - exists devices, (Ret None),
      (EvRun adb_devices 10
         :: display_events devices
         ++ [all_offline; EvInput confirm_prompt; none_online]), [].
    split; [by rewrite Hget |].
    split; [rewrite Hmain; f_equal; same_history |].
    split; [by rewrite commands_run, commands_app, (commands_prints _ Hdisplay) |].
    split; [constructor |].
    rewrite prompts_run, prompts_app, (prompts_prints _ Hdisplay).
    apply sublist_skip, sublist_nil_l.
  - destruct (select_and_report_run env online_devices
                ((t ++ EvRun adb_devices 10 :: display_events devices
                    ++ [all_offline; EvInput confirm_prompt]) ++ events))
      as (outcome & final & Hselect & Hcommands & Hprompts & _).
    destruct (attempt_events_commands devices events Hevents)
      as [Hattempts Hsilent].
    exists devices, outcome,
      (EvRun adb_devices 10
         :: display_events devices
         ++ [all_offline; EvInput confirm_prompt] ++ events ++ final),
      (commands events).
    split; [by rewrite Hget |].
    split.
    { rewrite Hmain.
      assert ((t ++ EvRun adb_devices 10 :: display_events devices)
                ++ [all_offline; EvInput confirm_prompt]
              = t ++ EvRun adb_devices 10 :: display_events devices
                  ++ [all_offline; EvInput confirm_prompt]) as Ht
        by same_history.
      rewrite Ht, Hselect. f_equal. same_history. }
    split.
    { rewrite commands_run, commands_app, (commands_prints _ Hdisplay).
      cbn [app]. rewrite commands_print. change (commands (EvInput ?p :: ?l))
        with (commands l).
      by rewrite commands_app, Hcommands, app_nil_r. }
    split; [by rewrite (filter_online_none devices Hnone) |].
    rewrite prompts_run, prompts_app, (prompts_prints _ Hdisplay).
    cbn [app]. rewrite prompts_print, prompts_input, prompts_app, Hsilent.
    by apply sublist_skip.
Qed.

(** ** Numbers: what the display prints and what the selection reads *)

Section Numbers.

Implicit Types (d : Decimal.uint) (s : str) (c : char).

Lemma digits_step (acc : Z) (cnt : nat) (after_digit : bool) c s :
  is_digit c = true ->
  digits acc cnt after_digit (c :: s)
  = digits (10 * acc + Z.of_N (c - 48)) (S cnt) true s.
Proof. intros H. cbn [digits]. by rewrite H. Qed.

Ltac digit_case IH :=
  cbn [bytes_of NilEmpty.string_of_uint Nat.of_uint_acc Decimal.nb_digits];
  rewrite digits_step by reflexivity;
  rewrite <- Nat.add_succ_comm, <- IH; f_equal;
  rewrite Nat.tail_mul_spec;
  match goal with
  | |- context [Z.of_N ?x] =>
      let k := eval vm_compute in (Z.of_N x) in change (Z.of_N x) with k
  end;
  lia.

(** Reading the digits of a decimal numeral, after a digit. *)
Lemma digits_uint d (acc cnt : nat) :
  digits (Z.of_nat acc) cnt true (bytes_of (NilEmpty.string_of_uint d))
  = Some (Z.of_nat (Nat.of_uint_acc d acc), cnt + Decimal.nb_digits d).
Proof.
  revert acc cnt.
  induction d as [|d IH|d IH|d IH|d IH|d IH|d IH|d IH|d IH|d IH|d IH];
    intros acc cnt;
    [cbn; by rewrite Nat.add_0_r | digit_case IH ..].
Qed.

(** The same at the start of the numeral, which must not be empty. *)
Lemma digits_uint_start d :
  d <> Decimal.Nil ->
  digits 0 0 false (bytes_of (NilEmpty.string_of_uint d))
  = Some (Z.of_nat (Nat.of_uint d), Decimal.nb_digits d).
Proof.
  intros Hd. unfold Nat.of_uint.
  destruct d; [done | ..];
    cbn [bytes_of NilEmpty.string_of_uint Nat.of_uint_acc Decimal.nb_digits];
    rewrite digits_step by reflexivity;
    change (10 * 0 + Z.of_N (?x - 48))%Z
      with (Z.of_nat (Nat.of_uint_acc (Decimal.D0 Decimal.Nil) 0)
            + Z.of_N (x - 48))%Z;
    match goal with
    | |- context [Z.of_N ?x] =>
        let k := eval vm_compute in (Z.of_N x) in change (Z.of_N x) with k
    end;
    match goal with
    | |- digits ?a _ _ _ = Some (Z.of_nat (Nat.of_uint_acc _ ?acc), _) =>
        replace a with (Z.of_nat acc) by (vm_compute; reflexivity)
    end;
    by rewrite digits_uint.
Qed.

Lemma to_little_uint_nonnil (n : nat) d :
  d <> Decimal.Nil -> Nat.to_little_uint n d <> Decimal.Nil.
Proof.
  revert d. induction n as [|n IH]; intros d Hd; [done |].
  cbn [Nat.to_little_uint]. apply IH. by destruct d.
Qed.

Lemma to_uint_nonnil (n : nat) : Nat.to_uint n <> Decimal.Nil.
Proof.
  unfold Nat.to_uint. intros H%DecimalFacts.rev_nil_inv.
  by apply to_little_uint_nonnil in H.
Qed.

Lemma uint_digits d :
  Forall (fun c => is_digit c = true) (bytes_of (NilEmpty.string_of_uint d)).
Proof. induction d; by constructor. Qed.

Lemma uint_length d :
  length (bytes_of (NilEmpty.string_of_uint d)) = Decimal.nb_digits d.
Proof. induction d; [done | cbn; by f_equal ..]. Qed.

Lemma to_ascii_digit (decimal : char -> option N) c :
  is_digit c = true -> to_ascii decimal c = Some c.
Proof.
  unfold is_digit, to_ascii. intros [_ H]%andb_true_iff. apply N.leb_le in H.
  assert ((c <? 128)%N = true) as -> by (apply N.ltb_lt; lia). done.
Qed.

Lemma mapM_to_ascii_digits (decimal : char -> option N) s :
  Forall (fun c => is_digit c = true) s -> mapM (to_ascii decimal) s = Some s.
Proof.
  induction 1 as [|c s Hc _ IH]; [done |].
  cbn. by rewrite (to_ascii_digit _ _ Hc), IH.
Qed.

Lemma c_isspace_digit c : is_digit c = true -> c_isspace c = false.
Proof.
  unfold is_digit, c_isspace. intros [H1 H2]%andb_true_iff.
  apply N.leb_le in H1, H2.
  apply orb_false_iff. split.
  - apply andb_false_iff. right. apply N.leb_gt. lia.
  - apply N.eqb_neq. lia.
Qed.

Lemma c_lstrip_digits s :
  Forall (fun c => is_digit c = true) s -> c_lstrip s = s.
Proof.
  destruct 1 as [|c s Hc _]; [done |].
  cbn. by rewrite (c_isspace_digit _ Hc).
Qed.

Lemma sign_digit (body : list char) (c : char) (s : list char) :
  body = c :: s ->
  is_digit c = true ->
  match body with
  | 43%N :: r => (false, r)
  | 45%N :: r => (true, r)
  | _ => (false, body)
  end = (false, body).
Proof.
  intros -> H. destruct c as [|p]; [done |].
  do 6 (try (destruct p as [p|p|]; try reflexivity)); discriminate.
Qed.

(** [int] reads back the number that an f-string wrote. *)
Lemma int_str_of_nat (decimal : char -> option N) (max_str_digits n : nat) :
  length (str_of_nat n) <= 640 ->
  Py.int decimal max_str_digits (str_of_nat n) = Some (Z.of_nat n).
Proof.
  unfold str_of_nat. intros Hlen.
  pose proof (uint_digits (Nat.to_uint n)) as Hdigits.
  pose proof (to_uint_nonnil n) as Hnonnil.
  pose proof (digits_uint_start _ Hnonnil) as Hread.
  rewrite DecimalNat.Unsigned.of_to in Hread.
  rewrite uint_length in Hlen.
  unfold Py.int. rewrite (mapM_to_ascii_digits _ _ Hdigits).
  cbv zeta. rewrite (c_lstrip_digits _ Hdigits).
  rewrite c_lstrip_digits by by apply Forall_reverse.
  rewrite reverse_involutive.
  remember (bytes_of (NilEmpty.string_of_uint (Nat.to_uint n))) as body eqn:Hbody.
  assert (exists c s, body = c :: s /\ is_digit c = true) as (c & s & Hcs & Hc).
  { destruct Hdigits as [|c s Hc _]; [by destruct (Nat.to_uint n) | by eexists _, _]. }
  rewrite (sign_digit body c s Hcs Hc), Hread.
  assert ((640 <? Decimal.nb_digits (Nat.to_uint n)) = false) as ->
    by (apply Nat.ltb_ge; lia).
  done.
Qed.

End Numbers.

Section DisplayLines.

Lemma mark_wireless : str_lit ". 📶 " = str_lit ". " ++ str_lit "📶 ".
Proof. vm_compute. reflexivity. Qed.

Lemma mark_usb : str_lit ". 🔌 " = str_lit ". " ++ str_lit "🔌 ".
Proof. vm_compute. reflexivity. Qed.

Lemma mark_offline : str_lit ". ⚠️  " = str_lit ". " ++ str_lit "⚠️  ".
Proof. vm_compute. reflexivity. Qed.

Lemma display_online_numbered (i : nat) (device : DeviceRecord) :
  exists text,
    numbered i (device_id device) text /\
    forall t, display_online (i, device) t = (Ret tt, t ++ [EvPrint text]).
Proof.
  unfold display_online, numbered.
  repeat case_bool_decide; (eexists; split; [| reflexivity]).
  - eexists (_ ++ str_lit " "), _. by rewrite <- (app_assoc _ (str_lit " ")).
  - eexists _, _. by rewrite mark_wireless, <- (app_assoc (str_lit ". ")).
  - eexists _, _. by rewrite mark_usb, <- (app_assoc (str_lit ". ")).
Qed.

Lemma display_offline_numbered (i : nat) (device : DeviceRecord) :
  exists text,
    numbered i (device_id device) text /\
    forall t, display_offline (i, device) t = (Ret tt, t ++ [EvPrint text]).
Proof.
  unfold display_offline, numbered.
  repeat case_bool_decide; (eexists; split; [| reflexivity]);
    eexists _, _; by rewrite mark_offline, <- (app_assoc (str_lit ". ")).
Qed.

(** A loop over the numbered devices prints one line for each of them,
    under consecutive numbers. *)
Lemma for_each_numbered (body : nat * DeviceRecord -> M unit) :
  (forall i device,
     exists text,
       numbered i (device_id device) text /\
       forall t, body (i, device) t = (Ret tt, t ++ [EvPrint text])) ->
  forall (devices : list DeviceRecord) (start : nat),
    exists lines,
      (forall t,
         for_each body (enumerate devices start) t
         = (Ret tt, t ++ (EvPrint <$> lines))) /\
      length lines = length devices /\
      (forall i device,
         devices !! i = Some device ->
         exists text,
           lines !! i = Some text /\
           numbered (start + i) (device_id device) text).
Proof.
  intros Hbody devices.
  induction devices as [|device devices IH]; intros start.
  { exists []. split; [intros t; cbn; unfold ret; by rewrite app_nil_r |].
    split; [done |]. by intros i device [=]. }
  destruct (Hbody start device) as (text & Hnumbered & Hrun).
  destruct (IH (S start)) as (lines & Hfor & Hlen & Hlines).
  exists (text :: lines). split; [| split].
  - intros t.
    change (enumerate (device :: devices) start)
      with ((start, device) :: enumerate devices (S start)).
    cbn [for_each]. unfold bind. rewrite Hrun, Hfor.
    by rewrite <- app_assoc.
  - cbn. by rewrite Hlen.
  - intros [|i] device' Hd; cbn in Hd.
    + injection Hd as <-. exists text. by rewrite Nat.add_0_r.
    + destruct (Hlines i device' Hd) as (text' & Hi & Hn).
      exists text'. split; [done |]. by rewrite <- Nat.add_succ_comm.
Qed.

End DisplayLines.

(** X14.  What [display_devices] prints: a title and a rule; when there are
    online devices a heading and one line for each of them, in the order of
    the listing and numbered from 1; when there are offline devices a
    heading and one line for each of them, numbered on from the last online
    device; and a rule.  Every line shows the id of its device after its
    number. *)
Theorem display_devices_numbering (devices : list DeviceRecord) :
  let online_devices := filter online devices in
  let offline_devices := filter (fun d => ~ online d) devices in
  exists online_lines offline_lines,
    display_events devices
    = EvPrint (str_lit "📱 连接的设备:")
      :: EvPrint (repeat_str (str_lit "-") 60)
      :: (if bool_decide (online_devices <> []) then
            EvPrint (str_lit "✅ 在线设备:") :: (EvPrint <$> online_lines)
          else [])
      ++ (if bool_decide (offline_devices <> []) then
            EvPrint (NEWLINE :: str_lit "❌ 离线设备:") :: (EvPrint <$> offline_lines)
          else [])
      ++ [EvPrint (repeat_str (str_lit "-") 60)] /\
    length online_lines = length online_devices /\
    length offline_lines = length offline_devices /\
    (forall i device,
       online_devices !! i = Some device ->
       exists text,
         online_lines !! i = Some text /\
         numbered (S i) (device_id device) text) /\
    (forall j device,
       offline_devices !! j = Some device ->
       exists text,
         offline_lines !! j = Some text /\
         numbered (length online_devices + S j) (device_id device) text).
Proof.
  intros online_devices offline_devices.
  destruct (for_each_numbered display_online display_online_numbered
              online_devices 1)
    as (online_lines & Hon & Hon_len & Hon_lines).
  destruct (for_each_numbered display_offline display_offline_numbered
              offline_devices (length online_devices + 1))
    as (offline_lines & Hoff & Hoff_len & Hoff_lines).
  exists online_lines, offline_lines.
  split; [| split; [done | split; [done | split]]].
  - unfold display_events, display_devices.
    rewrite partition_devices_filter.
    fold online_devices. fold offline_devices.
    unfold bind, print, ret. cbn [app].
    do 2 case_bool_decide; rewrite ?Hon, ?Hoff; cbn [snd];
      rewrite <- ?app_assoc; reflexivity.
  - intros i device Hd. destruct (Hon_lines i device Hd) as (text & Hi & Hn).
    by exists text.
  - intros j device Hd. destruct (Hoff_lines j device Hd) as (text & Hj & Hn).
    exists text. split; [done |].
    by rewrite Nat.add_succ_r, <- Nat.add_succ_l, <- Nat.add_1_r.
Qed.

(** X15.  The selection reads back the numbers of the display.  On a list
    of two online devices or more, when the user types a number as the
    display writes it, the device displayed under that number is selected
    when the number is between 1 and the number of online devices; any
    other number (0, or the number of an offline device, which is larger)
    selects nothing and is answered with one message. *)
Theorem select_online_device_number
    (env : Env) (online_devices : list DeviceRecord) (t : trace) (n : nat) :
  2 <= length online_devices ->
  length (str_of_nat n) <= 640 ->
  input_outcome env t select_prompt = Ret (str_of_nat n) ->
  select_online_device env online_devices t
  = if bool_decide (1 <= n <= length online_devices)
    then (Ret (online_devices !! (n - 1)), t ++ [EvInput select_prompt])
    else (Ret None,
          t ++ [EvInput select_prompt; EvPrint (str_lit "无效的选择")]).
Proof.
  intros Hlen Hdigits Hin.
  rewrite (select_online_device_long env t online_devices _ Hlen Hin).
  rewrite (int_str_of_nat _ _ n Hdigits).
  case_bool_decide as Hz; case_bool_decide as Hn; try lia; [| done].
  by replace (Z.to_nat (Z.of_nat n - 1)) with (n - 1) by lia.
Qed.

Lemma select_online_device_number_witness :
  select_online_device
    (listing_env [] (Ret (str_of_nat 2)))
    [Device wifi_a (str_lit "device"); Device wifi_b (str_lit "device")] []
  = (Ret (Some (Device wifi_b (str_lit "device"))), [] ++ [EvInput select_prompt]).
Proof.
  apply (select_online_device_number
           (listing_env [] (Ret (str_of_nat 2)))
           [Device wifi_a (str_lit "device"); Device wifi_b (str_lit "device")]
           [] 2).
  - simpl. lia.
  - vm_compute. lia.
  - reflexivity.
Defined.

(** X16.  The commands and the messages of a reconnection attempt.  The
    attempt never prompts.  It announces itself, runs the disconnect
    command, and then either runs the connect command and prints one
    message, or prints one message at once.  The connect command is run
    exactly when the id has the wireless form and the disconnect command
    completed, whatever its exit code was. *)
Theorem reconnect_offline_device_commands
    (env : Env) (device_info : DeviceRecord) (t : trace) :
  let id := device_id device_info in
  exists (reconnected : bool) (message : str),
    (wireless_form id /\
     (exists completed,
        run_outcome env (t ++ [attempt_message id]) (disconnect_cmd id) 5
        = Ret completed) /\
     reconnect_offline_device env device_info t
     = (Ret reconnected,
        t ++ [attempt_message id; EvRun (disconnect_cmd id) 5;
              EvRun (connect_cmd id) 10; EvPrint message]))
    \/
    (~ (wireless_form id /\
        exists completed,
          run_outcome env (t ++ [attempt_message id]) (disconnect_cmd id) 5
          = Ret completed) /\
     reconnected = false /\
     reconnect_offline_device env device_info t
     = (Ret reconnected,
        t ++ [attempt_message id; EvRun (disconnect_cmd id) 5; EvPrint message])).
Proof.
  intros id.
  destruct (reconnect_offline_device_events env device_info t)
    as (reconnected & rest & Hrun & Hcases).
  fold id in Hrun, Hcases.
  destruct (run_outcome env (t ++ [attempt_message id]) (disconnect_cmd id) 5)
    as [completed|e].
  - destruct (contains_char COLON id || startswith id (str_lit "adb-")) eqn:Hform.
    + apply wireless_form_test in Hform.
      destruct Hcases as (message & -> & _).
      exists reconnected, message. left.
      split; [done |]. split; [by exists completed | done].
    + assert (~ wireless_form id) as Hnot.
      { rewrite <- wireless_form_test. by rewrite Hform. }
      destruct Hcases as [-> ->].
      eexists false, _. right. split; [tauto |]. split; [done | exact Hrun].
  - destruct Hcases as [-> ->].
    eexists false, _. right.
    split; [by intros (_ & completed & [=]) |]. split; [done | exact Hrun].
Qed.

Section Report.


End Report.

